(** * ubxview: the GNGGA parsing pipeline of [main.py]

    A shallow embedding of the log reader, the sentence validator, the
    sentence parser, the two fix resolvers and the live trajectory window
    of [src/main.py], followed by the properties the specification states
    about them.

    Conventions of the embedding.
    - A Python [str] is a [string]; a character is a code point below 256.
    - A Python [float] is a primitive binary64 [float]; the integer
      literals the source compares floats with or mixes into float
      arithmetic ([0], [100], [60], [9000], ...) are written as the floats
      they convert to exactly.
    - A Python [int] is a [Z].
    - A call that may raise returns a [result]; [try]/[except] is a match
      on the raised exception.  Console output ([print]) and the drawing
      calls are not part of the model.
    - The file system is not part of the model either: a function of the
      source that takes a file name takes, here, what the named file
      answers at the time of the call. *)

From Stdlib Require Import ZArith List Bool Ascii String Lia Floats.
Import ListNotations.

Local Open Scope string_scope.
Local Open Scope list_scope.
Local Open Scope Z_scope.

(** A decimal float literal denotes the nearest binary64 value, as in the
    source. *)
#[local] Set Warnings "-inexact-float".

(* ================================================================== *)
(** * Exceptions *)

Inductive exn : Type :=
| ValueError
| IndexError
| TypeError
| OverflowError
| UnicodeDecodeError
| FileNotFoundError
| OSError.

Inductive result (A : Type) : Type :=
| Ok (a : A)
| Raise (e : exn).

Arguments Ok {A} a.
Arguments Raise {A} e.

Definition bind {A B : Type} (r : result A) (k : A -> result B) : result B :=
  match r with
  | Ok a => k a
  | Raise e => Raise e
  end.

Notation "x <- r ;; k" := (bind r (fun x => k))
  (at level 61, r at next level, right associativity).

(* ================================================================== *)
(** * Python built-ins on strings *)

Definition ord (c : ascii) : Z := Z.of_N (N_of_ascii c).

(** [len(s)] *)
Definition len (s : string) : Z := Z.of_nat (String.length s).

(** [s.startswith(p)] *)
Definition startswith (s p : string) : bool := String.prefix p s.

(** [s.endswith(p)] *)
Definition endswith (s p : string) : bool :=
  let n := String.length s in
  let k := String.length p in
  (k <=? n)%nat && String.eqb (String.substring (n - k) k s) p.

(** [s.split(sep)] for a one-character separator: never empty. *)
Fixpoint split (sep : ascii) (s : string) : list string :=
  match s with
  | EmptyString => [EmptyString]
  | String c r =>
      if Ascii.eqb c sep then EmptyString :: split sep r
      else match split sep r with
           | [] => [String c EmptyString]
           | h :: t => String c h :: t
           end
  end.

(** [parts[i]] for a non-negative literal index. *)
Definition getitem (parts : list string) (i : nat) : result string :=
  match nth_error parts i with
  | Some s => Ok s
  | None => Raise IndexError
  end.

(** [not s]: the empty string is the only falsy string. *)
Definition is_empty (s : string) : bool :=
  match s with
  | EmptyString => true
  | String _ _ => false
  end.

(** [c.isspace()] on code points below 256. *)
Definition isspace (c : ascii) : bool :=
  let n := ord c in
  ((9 <=? n) && (n <=? 13)) || ((28 <=? n) && (n <=? 32))
  || (n =? 133) || (n =? 160).

(** [c.isprintable()] on code points below 256. *)
Definition isprintable (c : ascii) : bool :=
  let n := ord c in
  ((32 <=? n) && (n <=? 126))
  || ((161 <=? n) && (n <=? 255) && negb (n =? 173)).

Fixpoint lstrip (s : string) : string :=
  match s with
  | EmptyString => EmptyString
  | String c r => if isspace c then lstrip r else s
  end.

Fixpoint rstrip (s : string) : string :=
  match s with
  | EmptyString => EmptyString
  | String c r =>
      match rstrip r with
      | EmptyString => if isspace c then EmptyString else String c EmptyString
      | r' => String c r'
      end
  end.

(** [s.strip()] *)
Definition strip (s : string) : string := rstrip (lstrip s).

(** [all(p(c) for c in s)] *)
Fixpoint all_chars (p : ascii -> bool) (s : string) : bool :=
  match s with
  | EmptyString => true
  | String c r => p c && all_chars p r
  end.

(* ================================================================== *)
(** * Python [float(s)]

    [float] of a string first maps the non-ASCII white space to a blank
    and cuts the string at the first other character above 126, strips
    the C white space, checks and removes the digit-grouping underscores,
    and reads [inf], [infinity], [nan] or a decimal numeral with an
    optional exponent.  The numeral is rounded to the nearest binary64
    value, ties to even. *)

Definition is_c_space (c : ascii) : bool :=
  let n := ord c in ((9 <=? n) && (n <=? 13)) || (n =? 32).

Definition is_digit (c : ascii) : bool :=
  let n := ord c in (48 <=? n) && (n <=? 57).

Fixpoint to_ascii_spaces (l : list ascii) : list ascii :=
  match l with
  | [] => []
  | c :: r =>
      if ord c <? 127 then c :: to_ascii_spaces r
      else if isspace c then " "%char :: to_ascii_spaces r
      else ["?"%char]
  end.

Fixpoint drop_c_space (l : list ascii) : list ascii :=
  match l with
  | [] => []
  | c :: r => if is_c_space c then drop_c_space r else l
  end.

(** The trailing strip keeps at least one character, as the C loop does. *)
Fixpoint drop_c_space_end (l : list ascii) : list ascii :=
  match l with
  | [] => []
  | [c] => [c]
  | c :: r =>
      match drop_c_space_end r with
      | [d] => if is_c_space d then [c] else [c; d]
      | r' => c :: r'
      end
  end.

(** Underscores are allowed only between two digits; [prev] is the
    character before the current position. *)
Fixpoint strip_underscores (prev : option ascii) (l : list ascii)
  : option (list ascii) :=
  match l with
  | [] =>
      match prev with
      | Some "_"%char => None
      | _ => Some []
      end
  | c :: r =>
      if Ascii.eqb c "_"%char then
        match prev with
        | Some p => if is_digit p then strip_underscores (Some c) r else None
        | None => None
        end
      else
        match prev with
        | Some "_"%char =>
            if is_digit c then
              option_map (cons c) (strip_underscores (Some c) r)
            else None
        | _ => option_map (cons c) (strip_underscores (Some c) r)
        end
  end.

Definition lower (c : ascii) : ascii :=
  let n := ord c in
  if (65 <=? n) && (n <=? 90) then ascii_of_N (Z.to_N (n + 32)) else c.

Definition take_sign (l : list ascii) : bool * list ascii :=
  match l with
  | "-"%char :: r => (true, r)
  | "+"%char :: r => (false, r)
  | _ => (false, l)
  end.

Fixpoint span_digits (l : list ascii) : list ascii * list ascii :=
  match l with
  | [] => ([], [])
  | c :: r =>
      if is_digit c then let (d, rest) := span_digits r in (c :: d, rest)
      else ([], l)
  end.

Definition digits_value (l : list ascii) : Z :=
  fold_left (fun acc c => 10 * acc + (ord c - 48)) l 0.

(** What a numeral denotes before rounding. *)
Inductive numeral : Type :=
| NumInf (neg : bool)
| NumNan
| NumDec (neg : bool) (mantissa : Z) (exponent : Z).

Definition parse_inf_or_nan (l : list ascii) : option numeral :=
  let (neg, r) := take_sign l in
  let w := string_of_list_ascii (map lower r) in
  if String.eqb w "inf" || String.eqb w "infinity" then Some (NumInf neg)
  else if String.eqb w "nan" then Some NumNan
  else None.

Definition parse_decimal (l : list ascii) : option numeral :=
  let (neg, l1) := take_sign l in
  let (ip, l2) := span_digits l1 in
  let (fp, l3) :=
    match l2 with
    | "."%char :: r => span_digits r
    | _ => ([], l2)
    end in
  match ip ++ fp with
  | [] => None
  | ds =>
      let m := digits_value ds in
      let k := Z.of_nat (List.length fp) in
      match l3 with
      | [] => Some (NumDec neg m (- k))
      | c :: r =>
          if Ascii.eqb (lower c) "e"%char then
            let (eneg, r1) := take_sign r in
            match span_digits r1 with
            | ((_ :: _) as ed, []) =>
                let e := digits_value ed in
                Some (NumDec neg m ((if eneg then - e else e) - k))
            | _ => None
            end
          else None
      end
  end.

(** The binary64 value nearest to [m * 10 ^ e], for [m >= 0]. *)
Definition round_decimal (neg : bool) (m e : Z) : spec_float :=
  match m with
  | Zpos p =>
      if 0 <=? e then
        binary_normalize prec emax (cond_Zopp neg (m * 10 ^ e)) 0 neg
      else
        SFdiv prec emax (S754_finite neg p 0)
          (S754_finite false (Z.to_pos (10 ^ (- e))) 0)
  | _ => S754_zero neg
  end.

Definition numeral_value (n : numeral) : float :=
  match n with
  | NumInf neg => if neg then neg_infinity else infinity
  | NumNan => nan
  | NumDec neg m e => SF2Prim (round_decimal neg m e)
  end.

Definition read_numeral (s : string) : option numeral :=
  let l := drop_c_space_end (drop_c_space
             (to_ascii_spaces (list_ascii_of_string s))) in
  match strip_underscores None l with
  | None => None
  | Some l' =>
      match parse_inf_or_nan l' with
      | Some n => Some n
      | None => parse_decimal l'
      end
  end.

(** [float(s)]; a malformed numeral raises [ValueError]. *)
Definition py_float (s : string) : result float :=
  match read_numeral s with
  | Some n => Ok (numeral_value n)
  | None => Raise ValueError
  end.

(** [int(f)]: truncation toward zero; [nan] raises [ValueError], an
    infinity raises [OverflowError]. *)
Definition py_int (f : float) : result Z :=
  match Prim2SF f with
  | S754_nan => Raise ValueError
  | S754_infinity _ => Raise OverflowError
  | S754_zero _ => Ok 0
  | S754_finite s m e => Ok (cond_Zopp s (Z.shiftl (Zpos m) e))
  end.

(** The conversion of an [int] operand in mixed arithmetic: the nearest
    binary64 value, [OverflowError] when there is none. *)
Definition float_of_int (n : Z) : result float :=
  match binary_normalize prec emax n 0 false with
  | S754_infinity _ => Raise OverflowError
  | sf => Ok (SF2Prim sf)
  end.

(** [try: body except (e1, e2, ...): handler] *)
Definition try_except {A : Type} (body : result A) (caught : exn -> bool)
  (handler : result A) : result A :=
  match body with
  | Ok a => Ok a
  | Raise e => if caught e then handler else Raise e
  end.

(* ================================================================== *)
(** * Stage setup *)

Definition OBSERVER_LAT : float := 39.1961%float.
Definition OBSERVER_LON : float := (-77.2568)%float.
Definition OBSERVER_ALT : float := 130%float.
Definition STAGE_RADIUS : float := 25%float.

(* ================================================================== *)
(** * Sentence validator *)

(** [except ValueError]; [UnicodeDecodeError] is a subclass of
    [ValueError]. *)
Definition caught_ValueError (e : exn) : bool :=
  match e with
  | ValueError | UnicodeDecodeError => true
  | _ => false
  end.

Definition is_valid_gngga_line (line : string) : result bool :=
  if negb (startswith line "$GNGGA") then Ok false
  else
    let parts := split "," line in
    if (List.length parts <? 15)%nat then Ok false
    else
      lat_raw <- getitem parts 2 ;;
      lat_dir <- getitem parts 3 ;;
      lon_raw <- getitem parts 4 ;;
      lon_dir <- getitem parts 5 ;;
      alt_str <- getitem parts 9 ;;
      if is_empty lat_raw || is_empty lat_dir || is_empty lon_raw
         || is_empty lon_dir || is_empty alt_str
      then Ok false
      else
        try_except
          (lat_val <- py_float lat_raw ;;
           lon_val <- py_float lon_raw ;;
           alt_val <- py_float alt_str ;;
           if (lat_val =? 0)%float || (lon_val =? 0)%float then Ok false
           else if negb ((0 <=? lat_val)%float && (lat_val <=? 9000)%float)
           then Ok false
           else if negb ((0 <=? lon_val)%float && (lon_val <=? 18000)%float)
           then Ok false
           else if negb ((-1000 <=? alt_val)%float && (alt_val <=? 10000)%float)
           then Ok false
           else Ok true)
          caught_ValueError
          (Ok false).

(* ================================================================== *)
(** * Sentence parser *)

(** The tuple [(utc_time, latitude, longitude, altitude)]. *)
Record Fix : Type := mkFix {
  utc_time : string;
  latitude : float;
  longitude : float;
  altitude : float
}.

(** The nested function [convert] of [parse_gngga]. *)
Definition convert (coord direction : string) : result float :=
  coord_val <- py_float coord ;;
  deg <- py_int (coord_val / 100)%float ;;
  deg100 <- float_of_int (deg * 100) ;;
  let minutes := (coord_val - deg100)%float in
  degf <- float_of_int deg ;;
  let decimal := (degf + minutes / 60)%float in
  if String.eqb direction "S" || String.eqb direction "W"
  then Ok (decimal * (-1))%float
  else Ok decimal.

Definition caught_by_parse (e : exn) : bool :=
  match e with
  | ValueError | UnicodeDecodeError | IndexError | TypeError => true
  | _ => false
  end.

Definition parse_gngga (line : string) : result (option Fix) :=
  try_except
    (valid <- is_valid_gngga_line line ;;
     if negb valid then Ok None
     else
       let parts := split "," line in
       if (List.length parts <? 10)%nat then Ok None
       else
         head <- getitem parts 0 ;;
         if negb (endswith head "GGA") then Ok None
         else
           lat_raw <- getitem parts 2 ;;
           lat_dir <- getitem parts 3 ;;
           lon_raw <- getitem parts 4 ;;
           lon_dir <- getitem parts 5 ;;
           alt_str <- getitem parts 9 ;;
           utc <- getitem parts 1 ;;
           if is_empty lat_raw || is_empty lat_dir || is_empty lon_raw
              || is_empty lon_dir || is_empty alt_str
           then Ok None
           else
             lat <- convert lat_raw lat_dir ;;
             lon <- convert lon_raw lon_dir ;;
             alt <- py_float alt_str ;;
             if negb ((-90 <=? lat)%float && (lat <=? 90)%float) then Ok None
             else if negb ((-180 <=? lon)%float && (lon <=? 180)%float)
             then Ok None
             else if negb ((-1000 <=? alt)%float && (alt <=? 10000)%float)
             then Ok None
             else Ok (Some (mkFix utc lat lon alt)))
    caught_by_parse
    (Ok None).

(* ================================================================== *)
(** * Geospatial conversion *)

(** [np.pi] *)
Definition np_pi : float := 3.141592653589793%float.

Section Projection.

(** [np.cos], the cosine of the numerical library. *)
Variable np_cos : float -> float.

Definition geo_to_xy (lat0 lon0 lat lon : float) : float * float :=
  let R := 6371000%float in
  let x := ((lon - lon0) * np_pi / 180 * R * np_cos (lat0 * np_pi / 180))%float in
  let y := ((lat - lat0) * np_pi / 180 * R)%float in
  (x, y).

End Projection.

(* ================================================================== *)
(** * File reading *)

Inductive encoding : Type := utf_8 | latin_1 | cp1252 | ascii_encoding.

(** What the log file answers at the time of a call: [readlines enc] is
    the outcome of opening it in text mode with encoding [enc] and
    [errors='ignore'] and calling [readlines()]; [read_binary] is the
    outcome of the binary read, decoded and split at line feeds. *)
Record file : Type := mkFile {
  readlines : encoding -> result (list string);
  read_binary : result (list string)
}.

Definition encodings : list encoding :=
  [utf_8; latin_1; cp1252; ascii_encoding].

(** The [for encoding in encodings: ... else: ...] loop. *)
Fixpoint read_raw_lines (f : file) (encs : list encoding)
  : result (list string) :=
  match encs with
  | [] => read_binary f
  | enc :: rest =>
      match readlines f enc with
      | Raise UnicodeDecodeError => read_raw_lines f rest
      | r => r
      end
  end.

(** The test of the cleaning loop on a stripped line. *)
Definition keep_line (line : string) : bool :=
  if startswith line "$GNGGA" && (50 <? len line) then
    all_chars (fun c => (ord c <? 128) && (isprintable c || isspace c)) line
  else false.

(** The cleaning loop, with its accumulator [valid_lines]. *)
Fixpoint clean_lines (raw_lines valid_lines : list string) : list string :=
  match raw_lines with
  | [] => valid_lines
  | line :: rest =>
      let line := strip line in
      if keep_line line then clean_lines rest (valid_lines ++ [line])
      else clean_lines rest valid_lines
  end.

Definition read_latest_gnss_data (f : file) : result (list string) :=
  match read_raw_lines f encodings with
  | Ok raw_lines => Ok (clean_lines raw_lines [])
  | Raise FileNotFoundError => Ok []
  | Raise _ => Ok []
  end.

(* ================================================================== *)
(** * Fix resolvers *)

(** The loop [for line in reversed(lines)] of [get_last_valid_position],
    on the reversed list. *)
Fixpoint scan_backward (lines : list string) : result (option Fix) :=
  match lines with
  | [] => Ok None
  | line :: rest =>
      valid <- is_valid_gngga_line line ;;
      if valid then
        parsed <- parse_gngga line ;;
        match parsed with
        | Some fx => Ok (Some fx)
        | None => scan_backward rest
        end
      else scan_backward rest
  end.

Definition get_last_valid_position (f : file) : result (option Fix) :=
  lines <- read_latest_gnss_data f ;;
  match lines with
  | [] => Ok None
  | _ => scan_backward (rev lines)
  end.

(** The module-level loop that fills [positions] and [skipped_count]. *)
Fixpoint parse_loop (lines : list string) (positions : list Fix)
  (skipped_count : Z) : result (list Fix * Z) :=
  match lines with
  | [] => Ok (positions, skipped_count)
  | line :: rest =>
      parsed <- parse_gngga line ;;
      match parsed with
      | Some fx => parse_loop rest (positions ++ [fx]) skipped_count
      | None => parse_loop rest positions (skipped_count + 1)
      end
  end.

(** Batch mode: the candidate lines, the positions and the skipped count. *)
Definition parse_all (f : file) : result (list string * list Fix * Z) :=
  lines <- read_latest_gnss_data f ;;
  r <- parse_loop lines [] 0 ;;
  Ok (lines, fst r, snd r).

(* ================================================================== *)
(** * Live mode *)

Record live_state : Type := mkLive {
  live_path_x : list float;
  live_path_y : list float;
  live_path_z : list float;
  last_file_size : Z
}.

Definition live_start : live_state := mkLive [] [] [] 0.

(** One poll of the log file: what [os.path.getsize] answers and what the
    file holds. *)
Record poll : Type := mkPoll {
  getsize : result Z;
  contents : file
}.

(** The slice [l[-1000:]]. *)
Definition last_1000 (l : list float) : list float :=
  skipn (List.length l - 1000) l.

(** "Add to live path" and "Limit path history to last 1000 points". *)
Definition append_point (st : live_state) (x y z : float) : live_state :=
  let xs := live_path_x st ++ [x] in
  let ys := live_path_y st ++ [y] in
  let zs := live_path_z st ++ [z] in
  if (1000 <? List.length xs)%nat
  then mkLive (last_1000 xs) (last_1000 ys) (last_1000 zs) (last_file_size st)
  else mkLive xs ys zs (last_file_size st).

(** "Validate the position is reasonable" *)
Definition unreasonable (x y z : float) : bool :=
  (1000 <? abs x)%float || (1000 <? abs y)%float || (100 <? abs z)%float.

Section Live.

Variable np_cos : float -> float.

(** East, north and vertical offset of a fix from the observer. *)
Definition offset (fx : Fix) : float * float * float :=
  let (x, y) :=
    geo_to_xy np_cos OBSERVER_LAT OBSERVER_LON (latitude fx) (longitude fx) in
  (x, y, (altitude fx - OBSERVER_ALT)%float).

(** One turn of the [while True] loop of [live_gnss_playback]. *)
Definition live_iteration (st : live_state) (p : poll) : live_state :=
  match getsize p with
  | Raise _ => st
  | Ok current_file_size =>
      if current_file_size =? last_file_size st then st
      else
        let st := mkLive (live_path_x st) (live_path_y st) (live_path_z st)
                    current_file_size in
        match get_last_valid_position (contents p) with
        | Raise _ => st
        | Ok None => st
        | Ok (Some latest_pos) =>
            let '(x, y, z) := offset latest_pos in
            if unreasonable x y z then st
            else append_point st x y z
        end
  end.

Definition live_gnss_playback (polls : list poll) : live_state :=
  fold_left live_iteration polls live_start.

End Live.

(* ================================================================== *)
(** * The specification's wording of the operations

    The definitions below follow the sentences of the specification, not
    the source; the theorems compare them with the code above. *)

(** An integer as a float: the nearest binary64 value. *)
Definition Z2float (n : Z) : float :=
  SF2Prim (binary_normalize prec emax n 0 false).

(** The floor of a finite float. *)
Definition float_floor (f : float) : option Z :=
  match Prim2SF f with
  | S754_zero _ => Some 0
  | S754_finite s m e => Some (Z.shiftl (cond_Zopp s (Zpos m)) e)
  | _ => None
  end.

(** "integer degrees = floor(rawMagnitude / 100); minutes = rawMagnitude
    - degrees x 100; decimalDegrees = degrees + minutes/60; sign flipped
    when hemisphere is South or West". *)
Definition spec_convert (rawMagnitude : float) (hemisphere : string)
  : option float :=
  match float_floor (rawMagnitude / 100)%float with
  | None => None
  | Some degrees =>
      let minutes := (rawMagnitude - Z2float (degrees * 100))%float in
      let decimalDegrees := (Z2float degrees + minutes / 60)%float in
      if String.eqb hemisphere "S" || String.eqb hemisphere "W"
      then Some (- decimalDegrees)%float
      else Some decimalDegrees
  end.

(** "latitude in [-90, 90], longitude in [-180, 180], altitude in
    [-1000, 10000]". *)
Definition in_final_bounds (lat lon alt : float) : bool :=
  ((-90 <=? lat) && (lat <=? 90) && ((-180 <=? lon) && (lon <=? 180))
   && ((-1000 <=? alt) && (alt <=? 10000)))%float.

(** "start with the expected sentence prefix, exceed a minimum length
    threshold (50 characters), and consist entirely of 7-bit ASCII
    characters that are each either printable or whitespace". *)
Definition is_candidate (line : string) : bool :=
  startswith line "$GNGGA" && (50 <? len line)
  && forallb (fun c => (ord c <? 128) && (isprintable c || isspace c))
       (list_ascii_of_string line).

(** The fix a line parses to, if any. *)
Definition parsed_fix (line : string) : option Fix :=
  match parse_gngga line with
  | Ok (Some fx) => Some fx
  | _ => None
  end.

(** The successfully parsed fixes of a list of lines, in order. *)
Fixpoint successes (lines : list string) : list Fix :=
  match lines with
  | [] => []
  | line :: rest =>
      match parsed_fix line with
      | Some fx => fx :: successes rest
      | None => successes rest
      end
  end.

(** The last [n] elements of a list. *)
Definition lastn {A : Type} (n : nat) (l : list A) : list A :=
  skipn (List.length l - n) l.

(** The example sentence of the specification. *)
Definition example_line : string :=
  "$GNGGA,123456.00,3911.766,N,07715.408,W,1,08,0.9,130.0,M,46.9,M,,*47".

(* ================================================================== *)
(** * The live window's invariants *)

(** Every element of [l] has absolute value at most [b]. *)
Definition within (b : float) (l : list float) : Prop :=
  Forall (fun v => (abs v <=? b)%float = true) l.

(** The three coordinate lists have one length, at most 1000. *)
Definition window_sized (st : live_state) : Prop :=
  (List.length (live_path_x st) <= 1000)%nat
  /\ List.length (live_path_y st) = List.length (live_path_x st)
  /\ List.length (live_path_z st) = List.length (live_path_x st).

Definition window_bounded (st : live_state) : Prop :=
  within 1000 (live_path_x st) /\ within 1000 (live_path_y st)
  /\ within 100 (live_path_z st).

(* ================================================================== *)
(** * Example inputs *)

(** A file every read of which gives [raw_lines]. *)
Definition file_of_lines (raw_lines : list string) : file :=
  mkFile (fun _ => Ok raw_lines) (Ok raw_lines).

(** A path that does not exist: [open] raises [FileNotFoundError]. *)
Definition missing_file : file :=
  mkFile (fun _ => Raise FileNotFoundError) (Raise FileNotFoundError).

(** A file whose read fails with another I/O error. *)
Definition unreadable_file : file :=
  mkFile (fun _ => Raise OSError) (Raise OSError).

(** A sentence the validator accepts and the parser rejects: its raw
    latitude 8961.000 is within [0, 9000] and converts to 90.0166...
    degrees. *)
Definition out_of_range_line : string :=
  "$GNGGA,123457.00,8961.000,N,07715.408,W,1,08,0.9,130.0,M,46.9,M,,*47".

(** A sentence whose raw latitude is zero. *)
Definition zero_latitude_line : string :=
  "$GNGGA,123456.00,0000.000,N,07715.408,W,1,08,0.9,130.0,M,46.9,M,,*47".

(** Raw lines of a log: a padded sentence, noise, and a sentence the
    parser rejects. *)
Definition noisy_lines : list string :=
  [("  " ++ example_line ++ "  ")%string; "$GNGGA,too short"; "";
   "$GPGSV,3,1,11,03,03,111,00,04,15,270,00,06,01,010,00,13,06,292,00*74";
   out_of_range_line].

(** A poll that finds the file grown to 70 bytes, holding the example
    sentence. *)
Definition example_poll : poll :=
  mkPoll (Ok 70) (file_of_lines [example_line]).

(** The cosine by its Taylor polynomial of degree six. *)
Definition cos_taylor (t : float) : float :=
  (1 - t * t / 2 + t * t * t * t / 24 - t * t * t * t * t * t / 720)%float.

(* ================================================================== *)
(** * Facts the validator establishes *)

(** What the validator has established about a line it accepts. *)
Record validated (line lat_raw lat_dir lon_raw lon_dir alt_str : string)
  (lat_val lon_val alt_val : float) : Prop := mkValidated {
  v_prefix : startswith line "$GNGGA" = true;
  v_count : (15 <= List.length (split "," line))%nat;
  v_lat_raw : nth_error (split "," line) 2 = Some lat_raw;
  v_lat_dir : nth_error (split "," line) 3 = Some lat_dir;
  v_lon_raw : nth_error (split "," line) 4 = Some lon_raw;
  v_lon_dir : nth_error (split "," line) 5 = Some lon_dir;
  v_alt_str : nth_error (split "," line) 9 = Some alt_str;
  v_nonempty :
    is_empty lat_raw || is_empty lat_dir || is_empty lon_raw
    || is_empty lon_dir || is_empty alt_str = false;
  v_lat_val : py_float lat_raw = Ok lat_val;
  v_lon_val : py_float lon_raw = Ok lon_val;
  v_alt_val : py_float alt_str = Ok alt_val;
  v_lat_nonzero : (lat_val =? 0)%float = false;
  v_lon_nonzero : (lon_val =? 0)%float = false;
  v_lat_lo : (0 <=? lat_val)%float = true;
  v_lat_hi : (lat_val <=? 9000)%float = true;
  v_lon_lo : (0 <=? lon_val)%float = true;
  v_lon_hi : (lon_val <=? 18000)%float = true;
  v_alt_lo : (-1000 <=? alt_val)%float = true;
  v_alt_hi : (alt_val <=? 10000)%float = true
}.

(* ================================================================== *)
(** * Shapes of binary64 values *)

(** A zero or a finite non-zero number. *)
Definition finite_or_zero (x : spec_float) : Prop :=
  match x with
  | S754_zero _ | S754_finite _ _ _ => True
  | _ => False
  end.

(** A float that is a number. *)
Definition not_nan (f : float) : Prop := Prim2SF f <> S754_nan.

(** The outcome of rounding a non-negative mantissa keeps the sign it is
    given and is never [nan]. *)
Inductive rounded (s : bool) : spec_float -> Prop :=
| rounded_zero : rounded s (S754_zero s)
| rounded_infinity : rounded s (S754_infinity s)
| rounded_finite m e : rounded s (S754_finite s m e).

(** A finite outcome whose exponent is at most [E]. *)
Inductive rounded_below (s : bool) (E : Z) : spec_float -> Prop :=
| below_zero : rounded_below s E (S754_zero s)
| below_finite m e : e <= E -> rounded_below s E (S754_finite s m e).

(* ================================================================== *)
(** * Further definitions: fields, staging and the order of the floats *)

(** The number of occurrences of a character in a string. *)
Fixpoint count_char (sep : ascii) (s : string) : nat :=
  match s with
  | EmptyString => 0
  | String c r => (if Ascii.eqb c sep then 1 else 0) + count_char sep r
  end.

(** A sentence the validator rejects for its altitude field. *)
Definition nan_altitude_line : string :=
  "$GNGGA,123456.00,3911.766,N,07715.408,W,1,08,0.9,NaN,M,46.9,M,,*47".

(** A sentence cut after its sixth field. *)
Definition short_line : string := "$GNGGA,123456.00,3911.766,N,07715.408,W".

(** The example sentence after its tag and the first comma. *)
Definition example_fields : string :=
  "123456.00,3911.766,N,07715.408,W,1,08,0.9,130.0,M,46.9,M,,*47".

(** The example poll with another content of the same size. *)
Definition same_size_poll : poll :=
  mkPoll (Ok 70) (file_of_lines [out_of_range_line; zero_latitude_line]).

(* ================================================================== *)
(** * Altitude statistics and staging (batch mode) *)

(** The loop of [min(l)] after its first item: an item replaces the best
    one when it is less. *)
Fixpoint min_from (best : float) (l : list float) : float :=
  match l with
  | [] => best
  | item :: rest => min_from (if (item <? best)%float then item else best) rest
  end.

(** The loop of [max(l)]: an item replaces the best one when it is
    greater. *)
Fixpoint max_from (best : float) (l : list float) : float :=
  match l with
  | [] => best
  | item :: rest => max_from (if (best <? item)%float then item else best) rest
  end.

(** [min(l)]; the empty list raises [ValueError]. *)
Definition py_min (l : list float) : result float :=
  match l with
  | [] => Raise ValueError
  | first :: rest => Ok (min_from first rest)
  end.

(** [max(l)]; the empty list raises [ValueError]. *)
Definition py_max (l : list float) : result float :=
  match l with
  | [] => Raise ValueError
  | first :: rest => Ok (max_from first rest)
  end.

(** The loop "Transform Coordinates Relative to Observer", with its
    accumulators [coords] and [altitudes]. *)
Fixpoint transform_loop (np_cos : float -> float) (positions : list Fix)
  (coords : list (float * float * float)) (altitudes : list float)
  : list (float * float * float) * list float :=
  match positions with
  | [] => (coords, altitudes)
  | fx :: rest =>
      let '(x, y, z) := offset np_cos fx in
      transform_loop np_cos rest (coords ++ [(x, y, z)]) (altitudes ++ [z])
  end.

(** The altitude statistics and the z-axis limits. *)
Record staging : Type := mkStaging {
  min_alt : float;
  max_alt : float;
  alt_range : float;
  alt_center : float;
  z_buffer : float;
  z_min : float;
  z_max : float
}.

Definition stage_altitudes (altitudes : list float) : result staging :=
  min_alt <- py_min altitudes ;;
  max_alt <- py_max altitudes ;;
  let alt_range := (max_alt - min_alt)%float in
  let alt_center := ((min_alt + max_alt) / 2)%float in
  let z_buffer := max_from 2 [(alt_range * 2)%float] in
  Ok (mkStaging min_alt max_alt alt_range alt_center z_buffer
        (alt_center - z_buffer)%float (alt_center + z_buffer)%float).

(** Batch mode up to the staging: [None] is the [exit()] taken when no
    position was parsed. *)
Definition batch_staging (np_cos : float -> float) (f : file)
  : result (option (list (float * float * float) * list float * staging)) :=
  r <- parse_all f ;;
  match snd (fst r) with
  | [] => Ok None
  | positions =>
      let (coords, altitudes) := transform_loop np_cos positions [] [] in
      s <- stage_altitudes altitudes ;;
      Ok (Some (coords, altitudes, s))
  end.

(** The place of a number in the order of the floats: sign class first,
    then exponent, then mantissa. *)
Definition order_key (x : spec_float) : Z * Z * Z :=
  match x with
  | S754_zero _ => (0, 0, 0)
  | S754_infinity false => (2, 0, 0)
  | S754_infinity true => (-2, 0, 0)
  | S754_nan => (3, 0, 0)
  | S754_finite false m e => (1, e, Zpos m)
  | S754_finite true m e => (-1, - e, Zneg m)
  end.

Definition key_le (a b : Z * Z * Z) : Prop :=
  fst (fst a) < fst (fst b)
  \/ (fst (fst a) = fst (fst b)
      /\ (snd (fst a) < snd (fst b)
          \/ (snd (fst a) = snd (fst b) /\ snd a <= snd b))).

(** The example sentence with other fix quality, satellite count,
    dilution, geoid separation and checksum. *)
Definition example_line_other_checksum : string :=
  "$GNGGA,123456.00,3911.766,N,07715.408,W,2,11,1.4,130.0,M,-33.1,M,7,0012*00".

(* ================================================================== *)
(** * Binary64 rounding: digits, shifts and exponents *)

Lemma digits2_pos_size p : digits2_pos p = Pos.size p.
Proof. induction p; simpl; congruence. Qed.

Lemma Zdigits2_nonneg m : 0 <= Zdigits2 m.
Proof. destruct m; simpl; lia. Qed.

Lemma Zdigits2_gt m : 0 <= m -> m < 2 ^ Zdigits2 m.
Proof.
  destruct m as [|p|p]; simpl; intros H; try lia.
  rewrite digits2_pos_size.
  pose proof (Pos.size_gt p) as G.
  apply Pos2Z.pos_lt_pos in G. rewrite Pos2Z.inj_pow in G. exact G.
Qed.

Lemma Zdigits2_le m : 0 < m -> 2 ^ (Zdigits2 m - 1) <= m.
Proof.
  destruct m as [|p|p]; intros H; try lia.
  unfold Zdigits2. rewrite digits2_pos_size.
  pose proof (Pos.size_le p) as G.
  apply Pos2Z.pos_le_pos in G. rewrite Pos2Z.inj_pow in G.
  assert (E : 2 ^ Z.pos (Pos.size p) = 2 * 2 ^ (Z.pos (Pos.size p) - 1)).
  { rewrite <- Z.pow_succ_r by lia. f_equal. lia. }
  rewrite E in G. lia.
Qed.

Lemma Zdigits2_bound m k : 0 <= k -> 0 <= m < 2 ^ k -> Zdigits2 m <= k.
Proof.
  intros Hk [H0 H1].
  destruct (Z.eq_dec m 0) as [->|Hm]; [simpl; lia|].
  pose proof (Zdigits2_le m ltac:(lia)) as G.
  pose proof (Zdigits2_nonneg m).
  destruct (Z_le_gt_dec (Zdigits2 m) k) as [|Hgt]; [assumption|exfalso].
  assert (2 ^ k <= 2 ^ (Zdigits2 m - 1)) by (apply Z.pow_le_mono_r; lia).
  lia.
Qed.

Lemma Zdigits2_succ m : 0 <= m -> Zdigits2 (m + 1) <= Zdigits2 m + 1.
Proof.
  intros H. pose proof (Zdigits2_nonneg m). pose proof (Zdigits2_gt m H).
  apply Zdigits2_bound; [lia|].
  rewrite Z.pow_add_r by lia. lia.
Qed.

(** ** Shifting a mantissa right *)

Lemma shr_1_spec mrs :
  0 <= shr_m mrs ->
  0 <= shr_m (shr_1 mrs) /\
  Zdigits2 (shr_m (shr_1 mrs)) = Z.max 0 (Zdigits2 (shr_m mrs) - 1).
Proof.
  destruct mrs as [m r s]. cbn [shr_m]. intros H.
  destruct m as [|[p|p|]|p]; cbn [shr_1 shr_m Zdigits2 digits2_pos]; lia.
Qed.

Lemma iter_shr_1_spec n : forall mrs,
  0 <= shr_m mrs ->
  0 <= shr_m (iter_pos shr_1 n mrs) /\
  Zdigits2 (shr_m (iter_pos shr_1 n mrs))
  = Z.max 0 (Zdigits2 (shr_m mrs) - Z.pos n).
Proof.
  induction n as [n IH|n IH|]; intros mrs H; cbn [iter_pos].
  - destruct (shr_1_spec mrs H) as [H1 E1].
    destruct (IH _ H1) as [H2 E2].
    destruct (IH _ H2) as [H3 E3].
    split; [assumption|]. rewrite E3, E2, E1. lia.
  - destruct (IH _ H) as [H2 E2].
    destruct (IH _ H2) as [H3 E3].
    split; [assumption|]. rewrite E3, E2. lia.
  - apply shr_1_spec; assumption.
Qed.

Lemma shr_m_of_loc m l : shr_m (shr_record_of_loc m l) = m.
Proof. destruct l as [|[ | | ]]; reflexivity. Qed.

Lemma shr_fexp_spec m e l :
  0 <= m ->
  0 <= shr_m (fst (shr_fexp prec emax m e l)) /\
  snd (shr_fexp prec emax m e l) = Z.max e (fexp prec emax (Zdigits2 m + e)) /\
  Zdigits2 (shr_m (fst (shr_fexp prec emax m e l)))
  = Z.max 0 (Zdigits2 m - (snd (shr_fexp prec emax m e l) - e)).
Proof.
  intros H. unfold shr_fexp, shr.
  pose proof (Zdigits2_nonneg m) as Hd.
  destruct (fexp prec emax (Zdigits2 m + e) - e) as [|n|n] eqn:En;
    cbn [fst snd]; rewrite ?shr_m_of_loc.
  - repeat split; lia.
  - destruct (iter_shr_1_spec n (shr_record_of_loc m l)) as [H1 E1];
      [rewrite shr_m_of_loc; assumption|].
    rewrite shr_m_of_loc in E1. repeat split; lia.
  - repeat split; lia.
Qed.

Lemma round_nearest_even_spec m l :
  0 <= m ->
  0 <= round_nearest_even m l /\
  Zdigits2 (round_nearest_even m l) <= Zdigits2 m + 1.
Proof.
  intros H. pose proof (Zdigits2_succ m H). pose proof (Zdigits2_nonneg m).
  destruct l as [|[ | | ]]; cbn [round_nearest_even];
    try destruct (Z.even m); split; lia.
Qed.

Lemma binary_round_aux_rounded sx mx ex lx :
  0 <= mx -> rounded sx (binary_round_aux prec emax sx mx ex lx).
Proof.
  intros H. unfold binary_round_aux.
  destruct (shr_fexp_spec mx ex lx H) as (H1 & _ & _).
  destruct (shr_fexp prec emax mx ex lx) as [mrs' e'].
  cbn [fst snd] in H1.
  destruct (round_nearest_even_spec (shr_m mrs') (loc_of_shr_record mrs') H1)
    as [H2 _].
  destruct (shr_fexp_spec (round_nearest_even (shr_m mrs') (loc_of_shr_record mrs'))
              e' loc_Exact H2) as (H3 & _ & _).
  destruct (shr_fexp prec emax _ e' loc_Exact) as [mrs'' e''].
  cbn [fst snd] in H3.
  destruct (shr_m mrs'') as [|m|m]; [constructor| |lia].
  destruct (e'' <=? emax - prec); constructor.
Qed.

Lemma binary_round_aux_below sx mx ex lx E :
  0 <= mx ->
  ex <= E -> emin <= E -> Zdigits2 mx + ex + 1 - prec <= E ->
  E <= emax - prec ->
  rounded_below sx E (binary_round_aux prec emax sx mx ex lx).
Proof.
  intros H He Hmin Hd HE. unfold binary_round_aux.
  destruct (shr_fexp_spec mx ex lx H) as (H1 & E1 & D1).
  destruct (shr_fexp prec emax mx ex lx) as [mrs' e'].
  cbn [fst snd] in H1, E1, D1.
  destruct (round_nearest_even_spec (shr_m mrs') (loc_of_shr_record mrs') H1)
    as [H2 D2].
  destruct (shr_fexp_spec (round_nearest_even (shr_m mrs') (loc_of_shr_record mrs'))
              e' loc_Exact H2) as (H3 & E3 & _).
  destruct (shr_fexp prec emax _ e' loc_Exact) as [mrs'' e''].
  cbn [fst snd] in H3, E3.
  assert (Hb : e'' <= E).
  { rewrite E3. unfold fexp, SpecFloat.emin, prec, emax in *. lia. }
  destruct (shr_m mrs'') as [|m|m]; [constructor| |lia].
  replace (e'' <=? emax - prec) with true by (symmetry; apply Z.leb_le; lia).
  constructor. assumption.
Qed.

Lemma pow2_lt_inv a b : 0 <= a -> 2 ^ a < 2 ^ b -> a < b.
Proof.
  intros Ha H. destruct (Z_lt_ge_dec a b) as [|Hge]; [assumption|exfalso].
  destruct (Z_lt_ge_dec b 0) as [Hb|Hb].
  - rewrite (Z.pow_neg_r 2 b Hb) in H.
    pose proof (Z.pow_nonneg 2 a ltac:(lia)). lia.
  - assert (2 ^ b <= 2 ^ a) by (apply Z.pow_le_mono_r; lia). lia.
Qed.

Lemma SFdiv_core_spec mx ex my ey :
  let '(q, e', l) := SFdiv_core_binary prec emax (Z.pos mx) ex (Z.pos my) ey in
  0 <= q /\ e' <= ex - ey /\
  Zdigits2 q + e'
  <= Z.max (Zdigits2 (Z.pos mx) - Zdigits2 (Z.pos my) + 1) 0 + ex - ey.
Proof.
  unfold SFdiv_core_binary.
  set (d1 := Zdigits2 (Z.pos mx)). set (d2 := Zdigits2 (Z.pos my)).
  set (e' := Z.min (fexp prec emax (d1 + ex - (d2 + ey))) (ex - ey)).
  set (s := ex - ey - e').
  assert (Hs : 0 <= s) by (unfold s, e'; lia).
  set (m' := match s with
             | 0 => Z.pos mx
             | Z.pos _ => Z.shiftl (Z.pos mx) s
             | Z.neg _ => 0
             end).
  assert (Em : m' = Z.pos mx * 2 ^ s).
  { unfold m'. destruct s as [|p|p] eqn:Es; [rewrite Z.pow_0_r; lia| |lia].
    apply Z.shiftl_mul_pow2. lia. }
  pose proof (Z_div_mod m' (Z.pos my) ltac:(lia)) as Hdiv.
  destruct (Z.div_eucl m' (Z.pos my)) as [q r].
  destruct Hdiv as [Hq Hr].
  assert (Hm' : 0 <= m') by (rewrite Em; pose proof (Z.pow_nonneg 2 s); nia).
  assert (Hq0 : 0 <= q) by nia.
  split; [assumption|]. split; [unfold e'; lia|].
  destruct (Z.eq_dec q 0) as [->|Hqn]; [cbn [Zdigits2]; unfold e'; lia|].
  pose proof (Zdigits2_le q ltac:(lia)) as Lq.
  pose proof (Zdigits2_le (Z.pos my) ltac:(lia)) as L2. fold d2 in L2.
  pose proof (Zdigits2_gt (Z.pos mx) ltac:(lia)) as G1. fold d1 in G1.
  assert (Hd2 : 1 <= d2) by (unfold d2; cbn [Zdigits2]; lia).
  assert (Hd1 : 1 <= d1) by (unfold d1; cbn [Zdigits2]; lia).
  assert (Hdq : 1 <= Zdigits2 q) by (destruct q; cbn [Zdigits2]; lia).
  assert (P : 2 ^ (Zdigits2 q - 1 + (d2 - 1)) < 2 ^ (d1 + s)).
  { rewrite !Z.pow_add_r by lia.
    assert (m' < 2 ^ d1 * 2 ^ s).
    { rewrite Em. apply Z.mul_lt_mono_pos_r; [apply Z.pow_pos_nonneg; lia|lia]. }
    assert (2 ^ (Zdigits2 q - 1) * 2 ^ (d2 - 1) <= q * Z.pos my).
    { apply Z.mul_le_mono_nonneg; try lia; apply Z.pow_nonneg; lia. }
    nia. }
  apply pow2_lt_inv in P; [|lia].
  unfold s in P. lia.
Qed.

Lemma SF64div_finite_rounded sx mx ex sy my ey :
  rounded (xorb sx sy)
    (SF64div (S754_finite sx mx ex) (S754_finite sy my ey)).
Proof.
  unfold SF64div, SFdiv.
  pose proof (SFdiv_core_spec mx ex my ey) as H.
  destruct (SFdiv_core_binary prec emax (Z.pos mx) ex (Z.pos my) ey)
    as [[q e'] l].
  apply binary_round_aux_rounded. tauto.
Qed.

Lemma SF64div_finite_below sx mx ex sy my ey E :
  ex - ey <= E -> emin <= E ->
  Z.max (Zdigits2 (Z.pos mx) - Zdigits2 (Z.pos my) + 1) 0 + ex - ey + 1 - prec
  <= E ->
  E <= emax - prec ->
  rounded_below (xorb sx sy) E
    (SF64div (S754_finite sx mx ex) (S754_finite sy my ey)).
Proof.
  intros H1 H2 H3 H4. unfold SF64div, SFdiv.
  pose proof (SFdiv_core_spec mx ex my ey) as H.
  destruct (SFdiv_core_binary prec emax (Z.pos mx) ex (Z.pos my) ey)
    as [[q e'] l].
  destruct H as (Hq & He & Hd).
  apply binary_round_aux_below; lia.
Qed.

Lemma bounded_digits m e :
  bounded prec emax m e = true ->
  Zdigits2 (Z.pos m) <= prec /\ e <= emax - prec.
Proof.
  unfold bounded, canonical_mantissa. intros H.
  apply andb_true_iff in H. destruct H as [H1 H2].
  apply Z.eqb_eq in H1. apply Z.leb_le in H2.
  cbn [Zdigits2]. unfold fexp, SpecFloat.emin, prec, emax in *. lia.
Qed.

Lemma Prim2SF_finite_digits f s m e :
  Prim2SF f = S754_finite s m e ->
  Zdigits2 (Z.pos m) <= prec /\ e <= emax - prec.
Proof.
  intros H. pose proof (Prim2SF_valid f) as V. rewrite H in V.
  apply bounded_digits. exact V.
Qed.

(** A float in the range [(0, c]] is a positive finite number whose
    exponent is at most that of [c]. *)
Lemma positive_bounded_float f c mc ec :
  Prim2SF c = S754_finite false mc ec ->
  (f =? 0)%float = false -> (0 <=? f)%float = true -> (f <=? c)%float = true ->
  exists m e, Prim2SF f = S754_finite false m e /\ e <= ec
              /\ Zdigits2 (Z.pos m) <= prec.
Proof.
  intros Hc Hz H0 H1.
  rewrite eqb_spec in Hz. rewrite leb_spec in H0, H1. rewrite Hc in H1.
  change (Prim2SF 0%float) with (S754_zero false) in Hz, H0.
  destruct (Prim2SF f) as [s|s| |s m e] eqn:Ef;
    try (destruct s); try discriminate.
  exists m, e. split; [reflexivity|]. split.
  - unfold SFleb, SFcompare in H1.
    destruct (Z.compare_spec e ec); try discriminate; lia.
  - apply (Prim2SF_finite_digits f _ _ _ Ef).
Qed.

Lemma shiftl_bound m e k :
  0 <= k -> e <= k -> 0 <= Z.shiftl (Z.pos m) e < 2 ^ (Zdigits2 (Z.pos m) + k).
Proof.
  intros Hk He.
  pose proof (Zdigits2_gt (Z.pos m) ltac:(lia)) as G.
  pose proof (Zdigits2_nonneg (Z.pos m)) as D.
  rewrite Z.pow_add_r by lia.
  assert (0 < 2 ^ k) by (apply Z.pow_pos_nonneg; lia).
  destruct (Z_le_gt_dec 0 e) as [Hp|Hn].
  - rewrite Z.shiftl_mul_pow2 by lia.
    assert (0 < 2 ^ e <= 2 ^ k).
    { split; [apply Z.pow_pos_nonneg; lia|apply Z.pow_le_mono_r; lia]. }
    nia.
  - rewrite Z.shiftl_div_pow2 by lia.
    assert (0 < 2 ^ (- e)) by (apply Z.pow_pos_nonneg; lia).
    assert (0 <= Z.pos m / 2 ^ (- e)) by (apply Z.div_pos; lia).
    assert (Z.pos m / 2 ^ (- e) <= Z.pos m).
    { apply Z.div_le_upper_bound; [lia|nia]. }
    nia.
Qed.

(** [int(f / 100)] for a coordinate accepted by the validator. *)
Lemma py_int_div_100 f c mc ec :
  Prim2SF c = S754_finite false mc ec -> ec <= -38 ->
  (f =? 0)%float = false -> (0 <=? f)%float = true -> (f <=? c)%float = true ->
  exists deg, py_int (f / 100)%float = Ok deg
              /\ float_floor (f / 100)%float = Some deg
              /\ 0 <= deg < 2 ^ 61.
Proof.
  intros Hc Hec Hz H0 H1.
  destruct (positive_bounded_float f c mc ec Hc Hz H0 H1) as (m & e & Ef & He & Hd).
  unfold py_int, float_floor. rewrite div_spec, Ef.
  change (Prim2SF 100%float) with (S754_finite false 7036874417766400 (-46)).
  pose proof (SF64div_finite_below false m e false 7036874417766400 (-46) 8) as B.
  pose proof (Prim2SF_finite_digits (f / 100)%float) as V.
  rewrite div_spec, Ef in V.
  change (Prim2SF 100%float) with (S754_finite false 7036874417766400 (-46)) in V.
  change (Zdigits2 (Z.pos 7036874417766400)) with 53 in B.
  unfold prec, emax, SpecFloat.emin in *.
  destruct B as [|m' e' He']; try lia.
  - exists 0. split; [reflexivity|]. split; [reflexivity|lia].
  - exists (Z.shiftl (Z.pos m') e'). split; [reflexivity|].
    split; [reflexivity|].
    destruct (V _ _ _ eq_refl) as [Vd _].
    pose proof (shiftl_bound m' e' 8 ltac:(lia) He') as S.
    assert (2 ^ (Zdigits2 (Z.pos m') + 8) <= 2 ^ 61)
      by (apply Z.pow_le_mono_r; lia).
    lia.
Qed.

Lemma digits2_pos_iter_xO m d :
  Z.pos (digits2_pos (Pos.iter xO m d)) = Z.pos (digits2_pos m) + Z.pos d.
Proof.
  induction d as [|d IH] using Pos.peano_ind.
  - cbn [Pos.iter digits2_pos]. lia.
  - rewrite Pos.iter_succ. cbn [digits2_pos]. lia.
Qed.

Lemma shl_align_spec mx ex ex' :
  snd (shl_align mx ex ex') <= ex /\
  Zdigits2 (Z.pos (fst (shl_align mx ex ex'))) + snd (shl_align mx ex ex')
  = Zdigits2 (Z.pos mx) + ex.
Proof.
  unfold shl_align.
  destruct (ex' - ex) as [|d|d] eqn:E; cbn [fst snd Zdigits2]; try lia.
  rewrite digits2_pos_iter_xO. lia.
Qed.

Lemma binary_round_below s m e E :
  e <= E -> emin <= E -> Zdigits2 (Z.pos m) + e + 1 - prec <= E ->
  E <= emax - prec ->
  rounded_below s E (binary_round prec emax s m e).
Proof.
  intros H1 H2 H3 H4. unfold binary_round.
  pose proof (shl_align_spec m e (fexp prec emax (Z.pos (digits2_pos m) + e)))
    as [A1 A2].
  destruct (shl_align m e (fexp prec emax (Z.pos (digits2_pos m) + e)))
    as [mz ez].
  cbn [fst snd] in A1, A2.
  apply binary_round_aux_below; lia.
Qed.

Lemma binary_round_rounded s m e :
  rounded s (binary_round prec emax s m e).
Proof.
  unfold binary_round.
  destruct (shl_align m e (fexp prec emax (Z.pos (digits2_pos m) + e)))
    as [mz ez].
  apply binary_round_aux_rounded. lia.
Qed.

Lemma float_of_int_ok n :
  0 <= n < 2 ^ 1000 -> float_of_int n = Ok (Z2float n).
Proof.
  intros [H0 H1]. unfold float_of_int, Z2float.
  destruct n as [|p|p]; [reflexivity| |lia].
  cbn [binary_normalize].
  pose proof (Zdigits2_bound (Z.pos p) 1000 ltac:(lia) ltac:(lia)) as D.
  assert (B : rounded_below false 971 (binary_round prec emax false p 0)).
  { apply binary_round_below; unfold prec, emax, SpecFloat.emin; lia. }
  destruct B; reflexivity.
Qed.

Lemma binary_round_aux_scaled s m e :
  bounded prec emax m e = true ->
  binary_round_aux prec emax s (Z.pos (4503599627370496 * m)) (e + -52) loc_Exact
  = S754_finite s m e.
Proof.
  intros B. unfold bounded, canonical_mantissa in B.
  apply andb_true_iff in B. destruct B as [C L].
  apply Z.eqb_eq in C. apply Z.leb_le in L.
  unfold binary_round_aux, shr_fexp.
  assert (D : Zdigits2 (Z.pos (4503599627370496 * m)) = Z.pos (digits2_pos m) + 52).
  { cbn [Pos.mul Zdigits2 digits2_pos]. lia. }
  rewrite D.
  replace (Z.pos (digits2_pos m) + 52 + (e + -52)) with (Z.pos (digits2_pos m) + e) by lia.
  rewrite C.
  replace (e - (e + -52)) with 52 by lia.
  cbn [shr shr_record_of_loc Pos.mul iter_pos shr_1 orb loc_of_shr_record shr_m
       round_nearest_even].
  replace (e + -52 + 52) with e by lia.
  cbn [Zdigits2]. rewrite C. rewrite Z.sub_diag.
  cbn [shr shr_record_of_loc shr_m].
  replace (e <=? emax - prec) with true by (symmetry; apply Z.leb_le; exact L).
  reflexivity.
Qed.

Lemma mul_minus_one d : (d * (-1))%float = (- d)%float.
Proof.
  apply Prim2SF_inj. rewrite mul_spec, opp_spec.
  change (Prim2SF (-1)%float) with (S754_finite true 4503599627370496 (-52)).
  pose proof (Prim2SF_valid d) as V.
  destruct (Prim2SF d) as [s|s| |s m e]; try (destruct s; reflexivity).
  - reflexivity.
  - unfold SF64mul, SFmul, SFopp. rewrite Pos.mul_comm.
    rewrite (binary_round_aux_scaled _ m e V). destruct s; reflexivity.
Qed.

(* ================================================================== *)
(** * The validator *)

Lemma py_float_raises s e : py_float s = Raise e -> e = ValueError.
Proof.
  unfold py_float. destruct (read_numeral s); intros H; [discriminate|].
  congruence.
Qed.

Lemma getitem_in_range (parts : list string) i :
  (i < List.length parts)%nat -> exists s, nth_error parts i = Some s.
Proof.
  intros H. destruct (nth_error parts i) as [s|] eqn:E; [eauto|].
  apply nth_error_None in E. lia.
Qed.

(** Reads [parts[i]] when the index is within the list. *)
Ltac field parts i :=
  let s := fresh "s" in
  let E := fresh "E" in
  destruct (getitem_in_range parts i) as [s E]; [lia|];
  unfold getitem at 1; rewrite E; cbn [bind].

(** The validator returns a boolean on every string. *)
Lemma is_valid_total line : exists b, is_valid_gngga_line line = Ok b.
Proof.
  unfold is_valid_gngga_line.
  destruct (startswith line "$GNGGA"); cbn [negb]; [|eauto].
  destruct (List.length (split "," line) <? 15)%nat eqn:L; [eauto|].
  apply Nat.ltb_ge in L.
  field (split "," line) 2%nat. field (split "," line) 3%nat.
  field (split "," line) 4%nat. field (split "," line) 5%nat.
  field (split "," line) 9%nat.
  destruct (is_empty s || is_empty s0 || is_empty s1 || is_empty s2
            || is_empty s3); [eauto|].
  destruct (py_float s) as [lat_val|e] eqn:F1; cbn [bind try_except];
    [|rewrite (py_float_raises _ _ F1); cbn; eauto].
  destruct (py_float s1) as [lon_val|e] eqn:F2; cbn [bind try_except];
    [|rewrite (py_float_raises _ _ F2); cbn; eauto].
  destruct (py_float s3) as [alt_val|e] eqn:F3; cbn [bind try_except];
    [|rewrite (py_float_raises _ _ F3); cbn; eauto].
  repeat match goal with
         | |- context [if ?c then _ else _] => destruct c
         end; eexists; reflexivity.
Qed.

Lemma is_valid_true_inv line :
  is_valid_gngga_line line = Ok true ->
  exists lat_raw lat_dir lon_raw lon_dir alt_str lat_val lon_val alt_val,
    validated line lat_raw lat_dir lon_raw lon_dir alt_str
      lat_val lon_val alt_val.
Proof.
  unfold is_valid_gngga_line.
  destruct (startswith line "$GNGGA") eqn:P; cbn [negb]; [|discriminate].
  destruct (List.length (split "," line) <? 15)%nat eqn:L; [discriminate|].
  apply Nat.ltb_ge in L.
  unfold getitem.
  destruct (nth_error (split "," line) 2) as [lat_raw|] eqn:E2;
    cbn [bind]; [|discriminate].
  destruct (nth_error (split "," line) 3) as [lat_dir|] eqn:E3;
    cbn [bind]; [|discriminate].
  destruct (nth_error (split "," line) 4) as [lon_raw|] eqn:E4;
    cbn [bind]; [|discriminate].
  destruct (nth_error (split "," line) 5) as [lon_dir|] eqn:E5;
    cbn [bind]; [|discriminate].
  destruct (nth_error (split "," line) 9) as [alt_str|] eqn:E9;
    cbn [bind]; [|discriminate].
  destruct (is_empty lat_raw || is_empty lat_dir || is_empty lon_raw
            || is_empty lon_dir || is_empty alt_str) eqn:N; [discriminate|].
  destruct (py_float lat_raw) as [lat_val|e] eqn:F1; cbn [bind try_except];
    [|destruct (caught_ValueError e); discriminate].
  destruct (py_float lon_raw) as [lon_val|e] eqn:F2; cbn [bind try_except];
    [|destruct (caught_ValueError e); discriminate].
  destruct (py_float alt_str) as [alt_val|e] eqn:F3; cbn [bind try_except];
    [|destruct (caught_ValueError e); discriminate].
  destruct ((lat_val =? 0)%float || (lon_val =? 0)%float) eqn:Z0;
    [discriminate|].
  destruct ((0 <=? lat_val)%float && (lat_val <=? 9000)%float) eqn:B1;
    cbn [negb]; [|discriminate].
  destruct ((0 <=? lon_val)%float && (lon_val <=? 18000)%float) eqn:B2;
    cbn [negb]; [|discriminate].
  destruct ((-1000 <=? alt_val)%float && (alt_val <=? 10000)%float) eqn:B3;
    cbn [negb]; [|discriminate].
  intros _.
  apply orb_false_iff in Z0. apply andb_true_iff in B1, B2, B3.
  exists lat_raw, lat_dir, lon_raw, lon_dir, alt_str, lat_val, lon_val, alt_val.
  constructor; tauto.
Qed.

Lemma validated_is_valid line lat_raw lat_dir lon_raw lon_dir alt_str
  lat_val lon_val alt_val :
  validated line lat_raw lat_dir lon_raw lon_dir alt_str lat_val lon_val alt_val ->
  is_valid_gngga_line line = Ok true.
Proof.
  intros [P L E2 E3 E4 E5 E9 N F1 F2 F3 Z1 Z2 A1 A2 B1 B2 C1 C2].
  unfold is_valid_gngga_line, getitem.
  rewrite P. cbn [negb].
  replace (List.length (split "," line) <? 15)%nat with false
    by (symmetry; apply Nat.ltb_ge; exact L).
  rewrite E2, E3, E4, E5, E9. cbn [bind]. rewrite N.
  rewrite F1, F2, F3. cbn [bind].
  rewrite Z1, Z2, A1, A2, B1, B2, C1, C2. reflexivity.
Qed.

(* ================================================================== *)
(** * The parser *)

(** [convert] on a coordinate the validator accepted: no exception, and
    the value the specification's formula gives. *)
Lemma convert_ok coord direction v c mc ec :
  py_float coord = Ok v ->
  Prim2SF c = S754_finite false mc ec -> ec <= -38 ->
  (v =? 0)%float = false -> (0 <=? v)%float = true -> (v <=? c)%float = true ->
  exists d, spec_convert v direction = Some d /\ convert coord direction = Ok d.
Proof.
  intros F Hc Hec Hz H0 H1.
  destruct (py_int_div_100 v c mc ec Hc Hec Hz H0 H1) as (deg & I & Fl & B).
  unfold convert, spec_convert. rewrite F, Fl. cbn [bind]. rewrite I. cbn [bind].
  assert (2 ^ 61 * 100 < 2 ^ 1000) by (vm_compute; reflexivity).
  rewrite (float_of_int_ok (deg * 100)) by lia. cbn [bind].
  rewrite (float_of_int_ok deg) by lia. cbn [bind].
  rewrite mul_minus_one.
  destruct (String.eqb direction "S" || String.eqb direction "W"); eauto.
Qed.

Lemma parse_gngga_invalid line :
  is_valid_gngga_line line = Ok false -> parse_gngga line = Ok None.
Proof. intros H. unfold parse_gngga. rewrite H. reflexivity. Qed.

Lemma parse_gngga_valid line lat_raw lat_dir lon_raw lon_dir alt_str
  lat_val lon_val alt_val :
  validated line lat_raw lat_dir lon_raw lon_dir alt_str lat_val lon_val alt_val ->
  exists head utc dlat dlon,
    nth_error (split "," line) 0 = Some head /\
    nth_error (split "," line) 1 = Some utc /\
    spec_convert lat_val lat_dir = Some dlat /\
    spec_convert lon_val lon_dir = Some dlon /\
    convert lat_raw lat_dir = Ok dlat /\
    convert lon_raw lon_dir = Ok dlon /\
    parse_gngga line
    = Ok (if endswith head "GGA" && in_final_bounds dlat dlon alt_val
          then Some (mkFix utc dlat dlon alt_val) else None).
Proof.
  intros V. pose proof (validated_is_valid _ _ _ _ _ _ _ _ _ V) as Hv.
  destruct V as [P L E2 E3 E4 E5 E9 N F1 F2 F3 Z1 Z2 A1 A2 B1 B2 C1 C2].
  destruct (getitem_in_range (split "," line) 0) as [head E0]; [lia|].
  destruct (getitem_in_range (split "," line) 1) as [utc E1]; [lia|].
  destruct (convert_ok lat_raw lat_dir lat_val 9000%float 4947802324992000 (-39) F1 eq_refl
              ltac:(lia) Z1 A1 A2) as (dlat & S1 & K1).
  destruct (convert_ok lon_raw lon_dir lon_val 18000%float 4947802324992000 (-38) F2 eq_refl
              ltac:(lia) Z2 B1 B2) as (dlon & S2 & K2).
  exists head, utc, dlat, dlon. repeat (split; [assumption|]).
  unfold parse_gngga, getitem. rewrite Hv. cbn [bind negb].
  replace (List.length (split "," line) <? 10)%nat with false
    by (symmetry; apply Nat.ltb_ge; lia).
  rewrite E0, E1, E2, E3, E4, E5, E9. cbn [bind].
  unfold in_final_bounds.
  destruct (endswith head "GGA"); cbn [negb andb]; [|reflexivity].
  rewrite N, K1, K2, F3. cbn [bind].
  destruct ((-90 <=? dlat)%float && (dlat <=? 90)%float); cbn [negb andb];
    [|reflexivity].
  destruct ((-180 <=? dlon)%float && (dlon <=? 180)%float); cbn [negb andb];
    [|reflexivity].
  destruct ((-1000 <=? alt_val)%float && (alt_val <=? 10000)%float);
    reflexivity.
Qed.

(** [parse_gngga] never lets an exception escape, and a fix it returns
    comes from a line the validator accepts and lies within the final
    bounds. *)
Lemma parse_gngga_total line :
  parse_gngga line = Ok None \/
  exists fx, parse_gngga line = Ok (Some fx)
             /\ is_valid_gngga_line line = Ok true
             /\ in_final_bounds (latitude fx) (longitude fx) (altitude fx) = true.
Proof.
  destruct (is_valid_total line) as [[|] Hv].
  - destruct (is_valid_true_inv line Hv)
      as (lat_raw & lat_dir & lon_raw & lon_dir & alt_str
          & lat_val & lon_val & alt_val & V).
    destruct (parse_gngga_valid _ _ _ _ _ _ _ _ _ V)
      as (head & utc & dlat & dlon & _ & _ & _ & _ & _ & _ & Hp).
    destruct (endswith head "GGA" && in_final_bounds dlat dlon alt_val) eqn:C.
    + right. eexists. split; [exact Hp|]. split; [exact Hv|].
      apply andb_true_iff in C. apply C.
    + left. exact Hp.
  - left. apply parse_gngga_invalid. exact Hv.
Qed.

(* ================================================================== *)
(** * The log reader and the fix resolvers *)

Lemma all_chars_forallb p s :
  all_chars p s = forallb p (list_ascii_of_string s).
Proof. induction s as [|c r IH]; cbn; [reflexivity|]. now rewrite IH. Qed.

Lemma keep_line_is_candidate line : keep_line line = is_candidate line.
Proof.
  unfold keep_line, is_candidate. rewrite all_chars_forallb.
  destruct (startswith line "$GNGGA" && (50 <? len line)); reflexivity.
Qed.

Lemma clean_lines_filter raw_lines : forall valid_lines,
  clean_lines raw_lines valid_lines
  = valid_lines ++ filter is_candidate (map strip raw_lines).
Proof.
  induction raw_lines as [|line rest IH]; intros acc; cbn [clean_lines map filter].
  - now rewrite app_nil_r.
  - rewrite keep_line_is_candidate.
    destruct (is_candidate (strip line)); rewrite IH; [|reflexivity].
    now rewrite <- app_assoc.
Qed.

Lemma read_latest_gnss_data_total f :
  exists lines, read_latest_gnss_data f = Ok lines.
Proof.
  unfold read_latest_gnss_data.
  destruct (read_raw_lines f encodings) as [raw|e]; [eauto|].
  destruct e; eauto.
Qed.

Lemma parsed_fix_some line fx :
  parsed_fix line = Some fx <-> parse_gngga line = Ok (Some fx).
Proof.
  unfold parsed_fix. split.
  - destruct (parse_gngga line) as [[fx'|]|e]; congruence.
  - intros ->. reflexivity.
Qed.

Lemma parsed_fix_none line :
  parsed_fix line = None <-> parse_gngga line = Ok None.
Proof.
  unfold parsed_fix.
  destruct (parse_gngga_total line) as [H|(fx & H & _)]; rewrite H;
    split; congruence.
Qed.

(** The backward scan returns the first line, in scan order, that parses. *)
Lemma scan_backward_spec l :
  (scan_backward l = Ok None /\ Forall (fun x => parse_gngga x = Ok None) l)
  \/ exists before line after fx,
       l = before ++ line :: after
       /\ Forall (fun x => parse_gngga x = Ok None) before
       /\ parse_gngga line = Ok (Some fx)
       /\ scan_backward l = Ok (Some fx).
Proof.
  induction l as [|line rest IH]; cbn [scan_backward].
  - left. split; [reflexivity|constructor].
  - destruct (parse_gngga_total line) as [Hn|(fx & Hs & Hv & _)].
    + assert (E : (valid <- is_valid_gngga_line line ;;
                   if valid
                   then parsed <- parse_gngga line ;;
                        match parsed with
                        | Some fx => Ok (Some fx)
                        | None => scan_backward rest
                        end
                   else scan_backward rest) = scan_backward rest).
      { destruct (is_valid_total line) as [[|] Hv]; rewrite Hv; cbn [bind];
          [rewrite Hn|]; reflexivity. }
      rewrite E.
      destruct IH as [[H1 H2]|(before & l0 & after & fx & H1 & H2 & H3 & H4)].
      * left. split; [assumption|]. constructor; assumption.
      * right. exists (line :: before), l0, after, fx.
        split; [rewrite H1; reflexivity|].
        split; [constructor; assumption|]. split; assumption.
    + right. exists [], line, rest, fx.
      split; [reflexivity|]. split; [constructor|]. split; [assumption|].
      rewrite Hv. cbn [bind]. rewrite Hs. reflexivity.
Qed.

Lemma parse_loop_spec lines : forall positions skipped_count,
  parse_loop lines positions skipped_count
  = Ok (positions ++ successes lines,
        skipped_count + Z.of_nat (List.length lines)
        - Z.of_nat (List.length (successes lines))).
Proof.
  induction lines as [|line rest IH]; intros positions skipped;
    cbn [parse_loop successes List.length].
  - rewrite app_nil_r. f_equal. f_equal. lia.
  - destruct (parse_gngga_total line) as [Hn|(fx & Hs & _)].
    + rewrite Hn. cbn [bind].
      rewrite (proj2 (parsed_fix_none line) Hn), IH. f_equal. f_equal. lia.
    + rewrite Hs. cbn [bind].
      rewrite (proj2 (parsed_fix_some line fx) Hs), IH.
      rewrite <- app_assoc. cbn [List.length app]. f_equal. f_equal. lia.
Qed.

(* ================================================================== *)
(** * Numbers that are not [nan] *)

Lemma rounded_not_nan s r : rounded s r -> r <> S754_nan.
Proof. intros []; discriminate. Qed.

Lemma SF64sub_not_nan x y :
  x <> S754_nan -> finite_or_zero y -> SF64sub x y <> S754_nan.
Proof.
  intros Hx Hy.
  destruct x as [sx|sx| |sx mx ex], y as [sy|sy| |sy my ey];
    try contradiction; cbn [SF64sub SFsub]; try discriminate.
  - destruct sx, sy; discriminate.
  - unfold SF64sub, SFsub, binary_normalize.
    match goal with |- context [match ?z with Z0 => _ | _ => _ end] =>
      destruct z end;
      [discriminate| |]; eapply rounded_not_nan, binary_round_rounded.
Qed.

Lemma SF64mul_not_nan x sy my ey :
  x <> S754_nan -> SF64mul x (S754_finite sy my ey) <> S754_nan.
Proof.
  intros Hx. destruct x as [sx|sx| |sx mx ex]; try contradiction;
    cbn [SF64mul SFmul]; try discriminate.
  eapply rounded_not_nan. unfold SF64mul, SFmul.
  apply binary_round_aux_rounded. lia.
Qed.

Lemma SF64div_not_nan x sy my ey :
  x <> S754_nan -> SF64div x (S754_finite sy my ey) <> S754_nan.
Proof.
  intros Hx. destruct x as [sx|sx| |sx mx ex]; try contradiction;
    cbn [SF64div SFdiv]; try discriminate.
  eapply rounded_not_nan, SF64div_finite_rounded.
Qed.

Lemma sub_not_nan a b :
  not_nan a -> finite_or_zero (Prim2SF b) -> not_nan (a - b)%float.
Proof. unfold not_nan. rewrite sub_spec. apply SF64sub_not_nan. Qed.

Lemma mul_not_nan a b s m e :
  Prim2SF b = S754_finite s m e -> not_nan a -> not_nan (a * b)%float.
Proof. unfold not_nan. rewrite mul_spec. intros ->. apply SF64mul_not_nan. Qed.

Lemma div_not_nan a b s m e :
  Prim2SF b = S754_finite s m e -> not_nan a -> not_nan (a / b)%float.
Proof. unfold not_nan. rewrite div_spec. intros ->. apply SF64div_not_nan. Qed.

(** A float between two finite bounds is finite. *)
Lemma between_finite lo hi f sl ml el sh mh eh :
  Prim2SF lo = S754_finite sl ml el -> Prim2SF hi = S754_finite sh mh eh ->
  (lo <=? f)%float = true -> (f <=? hi)%float = true ->
  finite_or_zero (Prim2SF f).
Proof.
  intros Hlo Hhi H1 H2. rewrite leb_spec in H1, H2. rewrite Hlo in H1.
  rewrite Hhi in H2.
  destruct (Prim2SF f) as [s|s| |s m e]; cbn; try exact I;
    try (destruct s); cbn in H1, H2; try discriminate;
    destruct sl, sh; discriminate.
Qed.

Lemma finite_or_zero_not_nan x : finite_or_zero x -> x <> S754_nan.
Proof. destruct x; cbn; intros H; try contradiction; discriminate. Qed.

Lemma SFcompare_antisym x y c :
  SFcompare x y = Some c -> SFcompare y x = Some (CompOpp c).
Proof.
  destruct x as [sx|sx| |sx mx ex], y as [sy|sy| |sy my ey];
    cbn [SFcompare]; try discriminate;
    try (destruct sx); try (destruct sy);
    intros H; try (injection H as <-; reflexivity).
  - injection H as <-. f_equal.
    rewrite (Z.compare_antisym ex ey).
    destruct (ex ?= ey); cbn [CompOpp]; try reflexivity.
    rewrite (Pos.compare_cont_antisym mx my Eq). reflexivity.
  - injection H as <-. f_equal.
    rewrite (Z.compare_antisym ex ey).
    destruct (ex ?= ey); cbn [CompOpp]; try reflexivity.
    rewrite (Pos.compare_cont_antisym mx my Eq). reflexivity.
Qed.

(** For numbers, "not greater than" is "at most". *)
Lemma not_gt_le f c :
  not_nan f -> not_nan c ->
  (c <? abs f)%float = false -> (abs f <=? c)%float = true.
Proof.
  unfold not_nan. rewrite ltb_spec, leb_spec, abs_spec. intros Hf Hc.
  unfold SFltb, SFleb.
  destruct (SFcompare (Prim2SF c) (SFabs (Prim2SF f))) as [o|] eqn:E.
  - rewrite (SFcompare_antisym _ _ _ E). destruct o; cbn; congruence.
  - exfalso.
    destruct (Prim2SF c) as [sc|sc| |sc mc ec], (Prim2SF f) as [s|s| |s m e];
      cbn in E; try congruence; try (destruct sc); discriminate.
Qed.

(* ================================================================== *)
(** * Live mode *)

(** ** The sliding window *)

Lemma last_1000_lastn l : last_1000 l = lastn 1000 l.
Proof. reflexivity. Qed.

Lemma lastn_short {A} n (l : list A) : (List.length l <= n)%nat -> lastn n l = l.
Proof.
  intros H. unfold lastn.
  replace (List.length l - n)%nat with 0%nat by lia. reflexivity.
Qed.

Lemma lastn_length {A} n (l : list A) :
  List.length (lastn n l) = Nat.min n (List.length l).
Proof. unfold lastn. rewrite length_skipn. lia. Qed.

Lemma lastn_full_snoc {A} n (l : list A) x :
  List.length l = S n -> lastn (S n) (l ++ [x]) = tl l ++ [x].
Proof.
  intros H. unfold lastn. rewrite length_app. cbn [List.length].
  replace (List.length l + 1 - S n)%nat with 1%nat by lia.
  destruct l as [|a l]; [discriminate|]. reflexivity.
Qed.

Lemma Forall_skipn {A} (P : A -> Prop) n : forall l,
  Forall P l -> Forall P (skipn n l).
Proof.
  induction n as [|n IH]; intros l H; [exact H|].
  destruct H as [|a l Ha Hl]; [constructor|]. cbn [skipn]. apply IH, Hl.
Qed.

Lemma append_point_paths st x y z :
  List.length (live_path_y st) = List.length (live_path_x st) ->
  List.length (live_path_z st) = List.length (live_path_x st) ->
  live_path_x (append_point st x y z) = lastn 1000 (live_path_x st ++ [x])
  /\ live_path_y (append_point st x y z) = lastn 1000 (live_path_y st ++ [y])
  /\ live_path_z (append_point st x y z) = lastn 1000 (live_path_z st ++ [z])
  /\ last_file_size (append_point st x y z) = last_file_size st.
Proof.
  intros Hy Hz. unfold append_point.
  destruct (1000 <? List.length (live_path_x st ++ [x]))%nat eqn:C;
    cbn [live_path_x live_path_y live_path_z last_file_size];
    rewrite ?last_1000_lastn; [tauto|].
  apply Nat.ltb_ge in C. rewrite length_app in C. cbn [List.length] in C.
  rewrite !lastn_short by (rewrite length_app; cbn [List.length]; lia).
  tauto.
Qed.

Lemma append_point_sized st x y z :
  window_sized st -> window_sized (append_point st x y z).
Proof.
  intros (Hx & Hy & Hz).
  destruct (append_point_paths st x y z Hy Hz) as (Ex & Ey & Ez & _).
  unfold window_sized. rewrite Ex, Ey, Ez, !lastn_length, !length_app.
  cbn [List.length]. lia.
Qed.

Lemma within_lastn b n l x :
  within b l -> (abs x <=? b)%float = true -> within b (lastn n (l ++ [x])).
Proof.
  intros Hl Hx. apply Forall_skipn, Forall_app. split; [exact Hl|].
  constructor; [exact Hx|constructor].
Qed.

Lemma append_point_bounded st x y z :
  window_sized st -> window_bounded st ->
  (abs x <=? 1000)%float = true -> (abs y <=? 1000)%float = true ->
  (abs z <=? 100)%float = true ->
  window_bounded (append_point st x y z).
Proof.
  intros (_ & Hy & Hz) (Bx & By & Bz) Ax Ay Az.
  destruct (append_point_paths st x y z Hy Hz) as (Ex & Ey & Ez & _).
  unfold window_bounded. rewrite Ex, Ey, Ez.
  repeat split; apply within_lastn; assumption.
Qed.

Lemma lastn_app_lastn {A} n (l r : list A) :
  lastn n (lastn n l ++ r) = lastn n (l ++ r).
Proof.
  destruct (Nat.le_gt_cases (List.length l) n) as [H|H].
  - now rewrite (lastn_short n l H).
  - unfold lastn at 1 3. rewrite !length_app, lastn_length.
    unfold lastn. rewrite !skipn_app, skipn_skipn, length_skipn.
    f_equal; f_equal; lia.
Qed.

Lemma live_start_sized : window_sized live_start.
Proof.
  unfold window_sized, live_start.
  cbn [live_path_x live_path_y live_path_z List.length]. repeat split. lia.
Qed.

(** The window after a run of appends alone. *)
Lemma append_run_window pts : forall st,
  window_sized st ->
  live_path_x (fold_left (fun s '(x, y, z) => append_point s x y z) pts st)
  = lastn 1000 (live_path_x st ++ map (fun p => fst (fst p)) pts)
  /\ live_path_y (fold_left (fun s '(x, y, z) => append_point s x y z) pts st)
     = lastn 1000 (live_path_y st ++ map (fun p => snd (fst p)) pts)
  /\ live_path_z (fold_left (fun s '(x, y, z) => append_point s x y z) pts st)
     = lastn 1000 (live_path_z st ++ map snd pts).
Proof.
  induction pts as [|[[x y] z] rest IH]; intros st S; cbn [fold_left map].
  - destruct S as (Sx & Sy & Sz). rewrite !app_nil_r.
    rewrite !lastn_short by lia. repeat split; auto.
  - pose proof (append_point_sized st x y z S) as S'.
    destruct S as (Sx & Sy & Sz).
    destruct (append_point_paths st x y z Sy Sz) as (Ex & Ey & Ez & _).
    destruct (IH _ S') as (Ix & Iy & Iz).
    rewrite Ix, Iy, Iz, Ex, Ey, Ez, !lastn_app_lastn, <- !app_assoc.
    cbn [fst snd app]. repeat split.
Qed.

(** ** The fix the live loop projects *)

Lemma get_last_valid_position_bounds f fx :
  get_last_valid_position f = Ok (Some fx) ->
  in_final_bounds (latitude fx) (longitude fx) (altitude fx) = true.
Proof.
  unfold get_last_valid_position.
  destruct (read_latest_gnss_data_total f) as [lines ->]. cbn [bind].
  intros H.
  assert (S : scan_backward (rev lines) = Ok (Some fx))
    by (destruct lines; [discriminate|exact H]).
  destruct (scan_backward_spec (rev lines))
    as [[E _]|(before & line & after & fx' & _ & _ & P & E)];
    rewrite E in S; [discriminate|].
  injection S as <-.
  destruct (parse_gngga_total line) as [N|(fx0 & P0 & _ & B)];
    rewrite P in *; [discriminate|].
  injection P0 as <-. exact B.
Qed.

Section LiveFacts.

Variable np_cos : float -> float.

(** The cosine of the observer's latitude is a positive number, at
    most one. *)
Hypothesis np_cos_observer :
  (0 <? np_cos (OBSERVER_LAT * np_pi / 180))%float = true
  /\ (np_cos (OBSERVER_LAT * np_pi / 180) <=? 1)%float = true.

Lemma np_cos_observer_finite :
  exists m e,
    Prim2SF (np_cos (OBSERVER_LAT * np_pi / 180)) = S754_finite false m e.
Proof.
  destruct np_cos_observer as [H0 H1].
  rewrite ltb_spec in H0. rewrite leb_spec in H1.
  change (Prim2SF 0%float) with (S754_zero false) in H0.
  change (Prim2SF 1%float) with (S754_finite false 4503599627370496 (-52)) in H1.
  destruct (Prim2SF (np_cos (OBSERVER_LAT * np_pi / 180))) as [s|s| |s m e];
    try (destruct s); try discriminate.
  eauto.
Qed.

Lemma offset_not_nan fx :
  in_final_bounds (latitude fx) (longitude fx) (altitude fx) = true ->
  let '(x, y, z) := offset np_cos fx in
  not_nan x /\ not_nan y /\ not_nan z.
Proof.
  unfold in_final_bounds. intros B.
  apply andb_true_iff in B. destruct B as [B Ba].
  apply andb_true_iff in B. destruct B as [Bl Bo].
  apply andb_true_iff in Bl, Bo, Ba.
  assert (Fl : not_nan (latitude fx)).
  { apply finite_or_zero_not_nan.
    eapply (between_finite (-90) 90); try apply Bl; reflexivity. }
  assert (Fo : not_nan (longitude fx)).
  { apply finite_or_zero_not_nan.
    eapply (between_finite (-180) 180); try apply Bo; reflexivity. }
  assert (Fa : not_nan (altitude fx)).
  { apply finite_or_zero_not_nan.
    eapply (between_finite (-1000) 10000); try apply Ba; reflexivity. }
  destruct np_cos_observer_finite as (m & e & Hc).
  unfold offset, geo_to_xy. repeat split.
  - eapply mul_not_nan; [exact Hc|].
    eapply mul_not_nan; [reflexivity|].
    eapply div_not_nan; [reflexivity|].
    eapply mul_not_nan; [reflexivity|].
    apply sub_not_nan; [exact Fo|exact I].
  - eapply mul_not_nan; [reflexivity|].
    eapply div_not_nan; [reflexivity|].
    eapply mul_not_nan; [reflexivity|].
    apply sub_not_nan; [exact Fl|exact I].
  - apply sub_not_nan; [exact Fa|exact I].
Qed.

Lemma live_iteration_sized st p :
  window_sized st -> window_sized (live_iteration np_cos st p).
Proof.
  intros H. unfold live_iteration.
  destruct (getsize p) as [sz|e]; [|exact H].
  destruct (sz =? last_file_size st); [exact H|].
  destruct (get_last_valid_position (contents p)) as [[fx|]|e];
    try exact H.
  destruct (offset np_cos fx) as [[x y] z].
  destruct (unreasonable x y z); [exact H|].
  apply append_point_sized. exact H.
Qed.

Lemma live_iteration_bounded st p :
  window_sized st -> window_bounded st ->
  window_bounded (live_iteration np_cos st p).
Proof.
  intros S H. unfold live_iteration.
  destruct (getsize p) as [sz|e]; [|exact H].
  destruct (sz =? last_file_size st); [exact H|].
  destruct (get_last_valid_position (contents p)) as [[fx|]|e] eqn:G;
    try exact H.
  pose proof (offset_not_nan fx (get_last_valid_position_bounds _ _ G)) as N.
  destruct (offset np_cos fx) as [[x y] z]. destruct N as (Nx & Ny & Nz).
  destruct (unreasonable x y z) eqn:U; [exact H|].
  unfold unreasonable in U.
  apply orb_false_iff in U. destruct U as [U Uz].
  apply orb_false_iff in U. destruct U as [Ux Uy].
  apply append_point_bounded; try assumption;
    apply not_gt_le; try assumption; unfold not_nan; discriminate.
Qed.

Lemma live_run_invariant polls : forall st,
  window_sized st -> window_bounded st ->
  window_sized (fold_left (live_iteration np_cos) polls st)
  /\ window_bounded (fold_left (live_iteration np_cos) polls st).
Proof.
  induction polls as [|p rest IH]; intros st S B; cbn [fold_left].
  - split; assumption.
  - apply IH; [apply live_iteration_sized|apply live_iteration_bounded];
      assumption.
Qed.

End LiveFacts.

Lemma live_run_sized np_cos polls : forall st,
  window_sized st -> window_sized (fold_left (live_iteration np_cos) polls st).
Proof.
  induction polls as [|p rest IH]; intros st S; cbn [fold_left];
    [exact S|]. apply IH, live_iteration_sized, S.
Qed.

(* ================================================================== *)
(** * The claims of the specification *)

(** C1.  For every line the validator accepts, [parse_gngga] returns
    [None] or a fix whose latitude lies in [-90, 90], whose longitude
    lies in [-180, 180] and whose altitude lies in [-1000, 10000]; no
    exception escapes and no fix outside these bounds is returned. *)
Theorem parse_fix_within_bounds line :
  is_valid_gngga_line line = Ok true ->
  parse_gngga line = Ok None
  \/ exists fx,
       parse_gngga line = Ok (Some fx)
       /\ (-90 <=? latitude fx)%float = true
       /\ (latitude fx <=? 90)%float = true
       /\ (-180 <=? longitude fx)%float = true
       /\ (longitude fx <=? 180)%float = true
       /\ (-1000 <=? altitude fx)%float = true
       /\ (altitude fx <=? 10000)%float = true.
Proof.
  intros _.
  destruct (parse_gngga_total line) as [H|(fx & H & _ & B)]; [left; exact H|].
  right. exists fx. split; [exact H|].
  unfold in_final_bounds in B.
  repeat match goal with
         | H : _ && _ = true |- _ => apply andb_true_iff in H; destruct H
         end.
  tauto.
Qed.

Lemma parse_fix_within_bounds_witness :
  is_valid_gngga_line example_line = Ok true
  /\ (parse_gngga example_line = Ok None
      \/ exists fx,
           parse_gngga example_line = Ok (Some fx)
           /\ (-90 <=? latitude fx)%float = true
           /\ (latitude fx <=? 90)%float = true
           /\ (-180 <=? longitude fx)%float = true
           /\ (longitude fx <=? 180)%float = true
           /\ (-1000 <=? altitude fx)%float = true
           /\ (altitude fx <=? 10000)%float = true).
Proof.
  split; [vm_compute; reflexivity|].
  apply (parse_fix_within_bounds example_line). vm_compute. reflexivity.
Defined.

(** C2, as the specification states it, fails: the last candidate line of
    this file is accepted by the validator and rejected by the parser,
    and [get_last_valid_position] goes on to the earlier line and returns
    its fix. *)
Lemma latest_valid_scans_past_failure :
  read_latest_gnss_data (file_of_lines [example_line; out_of_range_line])
  = Ok [example_line; out_of_range_line]
  /\ is_valid_gngga_line out_of_range_line = Ok true
  /\ parse_gngga out_of_range_line = Ok None
  /\ get_last_valid_position (file_of_lines [example_line; out_of_range_line])
     = parse_gngga example_line
  /\ get_last_valid_position (file_of_lines [example_line; out_of_range_line])
     <> Ok None.
Proof.
  repeat split; try (vm_compute; reflexivity).
  vm_compute. discriminate.
Qed.

(** C2, amended.  [get_last_valid_position] returns the fix of the last
    candidate line that parses, passing over every later line, also one
    the validator accepts; it returns [None] only when no candidate line
    parses. *)
Theorem latest_valid_is_last_parsed f :
  exists lines,
    read_latest_gnss_data f = Ok lines
    /\ ((get_last_valid_position f = Ok None
         /\ Forall (fun x => parse_gngga x = Ok None) lines)
        \/ exists earlier line later fx,
             lines = earlier ++ line :: later
             /\ parse_gngga line = Ok (Some fx)
             /\ Forall (fun x => parse_gngga x = Ok None) later
             /\ get_last_valid_position f = Ok (Some fx)).
Proof.
  destruct (read_latest_gnss_data_total f) as [lines R].
  exists lines. split; [exact R|].
  unfold get_last_valid_position. rewrite R. cbn [bind].
  destruct lines as [|l0 rest]; [left; split; [reflexivity|constructor]|].
  set (lines := l0 :: rest).
  destruct (scan_backward_spec (rev lines))
    as [[E A]|(before & line & after & fx & E & A & P & S)].
  - left. split; [exact E|].
    rewrite <- (rev_involutive lines). apply Forall_rev, A.
  - right. exists (rev after), line, (rev before), fx.
    split.
    + rewrite <- (rev_involutive lines), E, rev_app_distr. cbn [rev].
      now rewrite <- app_assoc.
    + split; [exact P|]. split; [apply Forall_rev, A|exact S].
Qed.

(** C3.  For every line the validator accepts, each coordinate is
    converted by the formula of the specification (degrees the floor of
    the hundredth of the raw magnitude, minutes the remainder, degrees
    plus minutes over 60, negated exactly for hemisphere S or W), and the
    parser's result is the fix built from these values when the sentence
    tag and the final bounds allow it.  The example sentence parses to
    latitude 39.1961, longitude -77.2568 (to within 0.00005) and altitude
    130.0. *)
Theorem convert_follows_formula :
  (forall line,
     is_valid_gngga_line line = Ok true ->
     exists head utc lat_raw lat_dir lon_raw lon_dir alt_str
            lat_val lon_val alt_val dlat dlon,
       nth_error (split "," line) 0 = Some head
       /\ nth_error (split "," line) 1 = Some utc
       /\ validated line lat_raw lat_dir lon_raw lon_dir alt_str
            lat_val lon_val alt_val
       /\ spec_convert lat_val lat_dir = Some dlat
       /\ spec_convert lon_val lon_dir = Some dlon
       /\ convert lat_raw lat_dir = Ok dlat
       /\ convert lon_raw lon_dir = Ok dlon
       /\ parse_gngga line
          = Ok (if endswith head "GGA" && in_final_bounds dlat dlon alt_val
                then Some (mkFix utc dlat dlon alt_val) else None))
  /\ exists fx,
       parse_gngga example_line = Ok (Some fx)
       /\ (abs (latitude fx - 39.1961) <? 0.00005)%float = true
       /\ (abs (longitude fx - (-77.2568)) <? 0.00005)%float = true
       /\ altitude fx = 130%float.
Proof.
  split.
  - intros line Hv.
    destruct (is_valid_true_inv line Hv)
      as (lat_raw & lat_dir & lon_raw & lon_dir & alt_str
          & lat_val & lon_val & alt_val & V).
    destruct (parse_gngga_valid _ _ _ _ _ _ _ _ _ V)
      as (head & utc & dlat & dlon & H0 & H1 & S1 & S2 & K1 & K2 & Hp).
    exists head, utc, lat_raw, lat_dir, lon_raw, lon_dir, alt_str,
      lat_val, lon_val, alt_val, dlat, dlon.
    tauto.
  - eexists. split; [vm_compute; reflexivity|].
    cbn [latitude longitude altitude]. repeat split; vm_compute; reflexivity.
Qed.

Lemma convert_follows_formula_witness :
  is_valid_gngga_line example_line = Ok true
  /\ exists head utc lat_raw lat_dir lon_raw lon_dir alt_str
            lat_val lon_val alt_val dlat dlon,
       nth_error (split "," example_line) 0 = Some head
       /\ nth_error (split "," example_line) 1 = Some utc
       /\ validated example_line lat_raw lat_dir lon_raw lon_dir alt_str
            lat_val lon_val alt_val
       /\ spec_convert lat_val lat_dir = Some dlat
       /\ spec_convert lon_val lon_dir = Some dlon
       /\ convert lat_raw lat_dir = Ok dlat
       /\ convert lon_raw lon_dir = Ok dlon
       /\ parse_gngga example_line
          = Ok (if endswith head "GGA" && in_final_bounds dlat dlon alt_val
                then Some (mkFix utc dlat dlon alt_val) else None).
Proof.
  split; [vm_compute; reflexivity|].
  apply (proj1 convert_follows_formula example_line). vm_compute. reflexivity.
Defined.

(** C4.  A line whose raw latitude (field 2) or raw longitude (field 4)
    reads as a float equal to zero is rejected by the validator, whatever
    its other fields hold. *)
Theorem zero_magnitude_rejected line i raw v :
  i = 2%nat \/ i = 4%nat ->
  nth_error (split "," line) i = Some raw ->
  py_float raw = Ok v ->
  (v =? 0)%float = true ->
  is_valid_gngga_line line = Ok false.
Proof.
  intros Hi Hn Hf Hz.
  destruct (is_valid_total line) as [[|] Hv]; [exfalso|exact Hv].
  destruct (is_valid_true_inv line Hv)
    as (lat_raw & lat_dir & lon_raw & lon_dir & alt_str
        & lat_val & lon_val & alt_val & V).
  destruct V as [P L E2 E3 E4 E5 E9 N F1 F2 F3 Z1 Z2 A1 A2 B1 B2 C1 C2].
  destruct Hi as [-> | ->]; congruence.
Qed.

Lemma zero_magnitude_rejected_witness :
  (2%nat = 2%nat \/ 2%nat = 4%nat)
  /\ nth_error (split "," zero_latitude_line) 2 = Some "0000.000"
  /\ py_float "0000.000" = Ok 0%float
  /\ (0 =? 0)%float = true
  /\ is_valid_gngga_line zero_latitude_line = Ok false.
Proof.
  split; [left; reflexivity|].
  split; [vm_compute; reflexivity|].
  split; [vm_compute; reflexivity|].
  split; [vm_compute; reflexivity|].
  apply (zero_magnitude_rejected zero_latitude_line 2 "0000.000" 0%float);
    [left; reflexivity|vm_compute; reflexivity..].
Defined.

(** C5.  On every string the validator returns a boolean: no exception
    escapes it, and a latitude, longitude or altitude field that does not
    read as a float makes it return [False]. *)
Theorem validator_total line :
  (exists b, is_valid_gngga_line line = Ok b)
  /\ forall i raw e,
       i = 2%nat \/ i = 4%nat \/ i = 9%nat ->
       nth_error (split "," line) i = Some raw ->
       py_float raw = Raise e ->
       is_valid_gngga_line line = Ok false.
Proof.
  split; [apply is_valid_total|].
  intros i raw e Hi Hn Hf.
  destruct (is_valid_total line) as [[|] Hv]; [exfalso|exact Hv].
  destruct (is_valid_true_inv line Hv)
    as (lat_raw & lat_dir & lon_raw & lon_dir & alt_str
        & lat_val & lon_val & alt_val & V).
  destruct V as [P L E2 E3 E4 E5 E9 N F1 F2 F3 Z1 Z2 A1 A2 B1 B2 C1 C2].
  destruct Hi as [-> | [-> | ->]]; congruence.
Qed.

(** C6.  For a file that can be read, the reader returns the stripped
    lines that start with [$GNGGA], are longer than 50 characters and
    consist of 7-bit ASCII characters that are printable or white space,
    in file order; every other line is dropped. *)
Theorem reader_keeps_candidates f raw_lines :
  read_raw_lines f encodings = Ok raw_lines ->
  read_latest_gnss_data f = Ok (filter is_candidate (map strip raw_lines)).
Proof.
  intros H. unfold read_latest_gnss_data. rewrite H.
  now rewrite clean_lines_filter.
Qed.

Lemma reader_keeps_candidates_witness :
  read_raw_lines (file_of_lines noisy_lines) encodings = Ok noisy_lines
  /\ read_latest_gnss_data (file_of_lines noisy_lines)
     = Ok (filter is_candidate (map strip noisy_lines)).
Proof.
  split; [reflexivity|].
  apply (reader_keeps_candidates (file_of_lines noisy_lines) noisy_lines).
  reflexivity.
Defined.

(** C7.  Batch mode parses every candidate line, whatever the earlier
    ones gave: no exception stops the loop, [positions] holds the fixes
    of the lines that parse, in file order, and [skipped_count] is the
    number of candidate lines minus the number of fixes. *)
Theorem parse_all_counts f :
  exists lines,
    read_latest_gnss_data f = Ok lines
    /\ Forall (fun line => exists r, parse_gngga line = Ok r) lines
    /\ parse_all f
       = Ok (lines, successes lines,
             Z.of_nat (List.length lines)
             - Z.of_nat (List.length (successes lines))).
Proof.
  destruct (read_latest_gnss_data_total f) as [lines R].
  exists lines. split; [exact R|]. split.
  - apply Forall_forall. intros line _.
    destruct (parse_gngga_total line) as [H|(fx & H & _)]; eauto.
  - unfold parse_all. rewrite R. cbn [bind]. rewrite parse_loop_spec.
    reflexivity.
Qed.

(** C8.  The live window never holds more than 1000 points: after any
    sequence of polls each coordinate list has at most 1000 elements;
    appending to a full window drops its oldest point; and after any
    sequence of appends the window is the last 1000 of the appended
    points. *)
Theorem live_window_capped :
  (forall np_cos polls,
     (List.length (live_path_x (live_gnss_playback np_cos polls)) <= 1000)%nat
     /\ (List.length (live_path_y (live_gnss_playback np_cos polls)) <= 1000)%nat
     /\ (List.length (live_path_z (live_gnss_playback np_cos polls)) <= 1000)%nat)
  /\ (forall st x y z,
        List.length (live_path_x st) = 1000%nat ->
        List.length (live_path_y st) = 1000%nat ->
        List.length (live_path_z st) = 1000%nat ->
        live_path_x (append_point st x y z) = tl (live_path_x st) ++ [x]
        /\ live_path_y (append_point st x y z) = tl (live_path_y st) ++ [y]
        /\ live_path_z (append_point st x y z) = tl (live_path_z st) ++ [z])
  /\ (forall pts,
        let st := fold_left (fun s '(x, y, z) => append_point s x y z)
                    pts live_start in
        live_path_x st = lastn 1000 (map (fun p => fst (fst p)) pts)
        /\ live_path_y st = lastn 1000 (map (fun p => snd (fst p)) pts)
        /\ live_path_z st = lastn 1000 (map snd pts)).
Proof.
  pose proof live_start_sized as S0.
  split; [|split].
  - intros np_cos polls. unfold live_gnss_playback.
    destruct (live_run_sized np_cos polls live_start S0) as (Hx & Hy & Hz).
    lia.
  - intros st x y z Hx Hy Hz.
    destruct (append_point_paths st x y z) as (Ex & Ey & Ez & _);
      [lia|lia|].
    rewrite Ex, Ey, Ez.
    rewrite !(lastn_full_snoc 999) by assumption. repeat split.
  - intros pts. cbn zeta.
    destruct (append_run_window pts live_start S0) as (Ex & Ey & Ez).
    rewrite Ex, Ey, Ez. repeat split.
Qed.

(** C9, as the specification states it, fails: for a path that does not
    exist the reader raises nothing and returns the empty list, the same
    answer as for an empty file and as for any other read error. *)
Lemma missing_file_reads_empty :
  read_raw_lines missing_file encodings = Raise FileNotFoundError
  /\ read_latest_gnss_data missing_file <> Raise FileNotFoundError
  /\ read_latest_gnss_data missing_file = Ok []
  /\ read_latest_gnss_data missing_file
     = read_latest_gnss_data (file_of_lines [])
  /\ read_latest_gnss_data missing_file
     = read_latest_gnss_data unreadable_file.
Proof. repeat split; try reflexivity. discriminate. Qed.

(** C9, amended.  When the file cannot be read, because the path does not
    exist or for any other error, the reader catches the exception and
    returns the empty list. *)
Theorem reader_returns_empty_on_error f e :
  read_raw_lines f encodings = Raise e ->
  read_latest_gnss_data f = Ok [].
Proof.
  intros H. unfold read_latest_gnss_data. rewrite H. destruct e; reflexivity.
Qed.

Lemma reader_returns_empty_on_error_witness :
  read_raw_lines missing_file encodings = Raise FileNotFoundError
  /\ read_latest_gnss_data missing_file = Ok [].
Proof.
  split; [reflexivity|].
  apply (reader_returns_empty_on_error missing_file FileNotFoundError).
  reflexivity.
Defined.

(** C10.  Provided the cosine of the observer's latitude is a positive
    number at most one: a latest fix whose east or north offset exceeds
    1000 m in absolute value, or whose vertical offset exceeds 100 m,
    leaves the three coordinate lists as they were; and after any
    sequence of polls every stored east and north offset is at most 1000
    and every stored vertical offset at most 100 in absolute value. *)
Theorem live_window_within_bounds np_cos polls :
  (0 <? np_cos (OBSERVER_LAT * np_pi / 180))%float = true ->
  (np_cos (OBSERVER_LAT * np_pi / 180) <=? 1)%float = true ->
  (forall st p fx x y z,
     get_last_valid_position (contents p) = Ok (Some fx) ->
     offset np_cos fx = (x, y, z) ->
     (1000 <? abs x)%float = true \/ (1000 <? abs y)%float = true
     \/ (100 <? abs z)%float = true ->
     live_path_x (live_iteration np_cos st p) = live_path_x st
     /\ live_path_y (live_iteration np_cos st p) = live_path_y st
     /\ live_path_z (live_iteration np_cos st p) = live_path_z st)
  /\ Forall (fun x => (abs x <=? 1000)%float = true)
       (live_path_x (live_gnss_playback np_cos polls))
  /\ Forall (fun y => (abs y <=? 1000)%float = true)
       (live_path_y (live_gnss_playback np_cos polls))
  /\ Forall (fun z => (abs z <=? 100)%float = true)
       (live_path_z (live_gnss_playback np_cos polls)).
Proof.
  intros H0 H1. split.
  - intros st p fx x y z G O U. unfold live_iteration.
    destruct (getsize p) as [sz|e]; [|repeat split].
    destruct (sz =? last_file_size st); [repeat split|].
    rewrite G, O.
    assert (E : unreasonable x y z = true).
    { unfold unreasonable. destruct U as [-> | [-> | ->]];
        rewrite ?orb_true_r; reflexivity. }
    rewrite E. repeat split.
  - pose proof live_start_sized as S0.
    assert (B0 : window_bounded live_start) by (repeat split; constructor).
    destruct (live_run_invariant np_cos (conj H0 H1) polls live_start S0 B0)
      as [_ B].
    exact B.
Qed.

Lemma live_window_within_bounds_witness :
  (0 <? cos_taylor (OBSERVER_LAT * np_pi / 180))%float = true
  /\ (cos_taylor (OBSERVER_LAT * np_pi / 180) <=? 1)%float = true
  /\ Forall (fun x => (abs x <=? 1000)%float = true)
       (live_path_x (live_gnss_playback cos_taylor [example_poll]))
  /\ live_path_x (live_gnss_playback cos_taylor [example_poll]) <> [].
Proof.
  split; [vm_compute; reflexivity|]. split; [vm_compute; reflexivity|].
  split.
  - apply (live_window_within_bounds cos_taylor [example_poll]);
      vm_compute; reflexivity.
  - vm_compute. discriminate.
Defined.

(* ================================================================== *)
(** * Further properties of the code *)

(** ** The reader's output *)

Lemma lstrip_fixed s :
  match s with String c _ => isspace c = false | EmptyString => True end ->
  lstrip s = s.
Proof. destruct s as [|c r]; cbn; [reflexivity|]. now intros ->. Qed.

Lemma lstrip_no_lead s :
  match lstrip s with String c _ => isspace c = false | EmptyString => True end.
Proof.
  induction s as [|c r IH]; cbn; [exact I|].
  destruct (isspace c) eqn:E; [exact IH|exact E].
Qed.

Lemma rstrip_no_lead s :
  match s with String c _ => isspace c = false | EmptyString => True end ->
  match rstrip s with String c _ => isspace c = false | EmptyString => True end.
Proof.
  destruct s as [|c r]; cbn; [trivial|]. intros E.
  destruct (rstrip r); [rewrite E|]; exact E.
Qed.

Lemma rstrip_idempotent s : rstrip (rstrip s) = rstrip s.
Proof.
  induction s as [|c r IH]; cbn; [reflexivity|].
  destruct (rstrip r) as [|d r'] eqn:E.
  - destruct (isspace c) eqn:S; cbn; [reflexivity|]. now rewrite S.
  - change (rstrip (String c (String d r')))
      with (match rstrip (String d r') with
            | EmptyString =>
                if isspace c then EmptyString else String c EmptyString
            | String d' r'' => String c (String d' r'')
            end).
    now rewrite IH.
Qed.

Lemma strip_idempotent s : strip (strip s) = strip s.
Proof.
  unfold strip.
  rewrite (lstrip_fixed (rstrip (lstrip s)))
    by apply rstrip_no_lead, lstrip_no_lead.
  apply rstrip_idempotent.
Qed.

Lemma filter_strip_fixed raw :
  map strip (filter is_candidate (map strip raw))
  = filter is_candidate (map strip raw).
Proof.
  induction raw as [|r rest IH]; cbn [map filter]; [reflexivity|].
  destruct (is_candidate (strip r)); [|exact IH].
  cbn [map]. now rewrite strip_idempotent, IH.
Qed.

Lemma filter_idempotent {A} (p : A -> bool) l :
  filter p (filter p l) = filter p l.
Proof.
  induction l as [|a l IH]; cbn [filter]; [reflexivity|].
  destruct (p a) eqn:E; [|exact IH]. cbn [filter]. now rewrite E, IH.
Qed.

Lemma read_latest_gnss_data_shape f :
  exists raw, read_latest_gnss_data f
              = Ok (filter is_candidate (map strip raw)).
Proof.
  unfold read_latest_gnss_data.
  destruct (read_raw_lines f encodings) as [raw|e].
  - exists raw. now rewrite clean_lines_filter.
  - exists []. destruct e; reflexivity.
Qed.

(** X1.  What the reader returns is clean, and reading it again returns
    it unchanged. *)
Theorem reader_output_is_clean f :
  exists lines,
    read_latest_gnss_data f = Ok lines
    /\ Forall (fun line => is_candidate line = true /\ strip line = line) lines
    /\ read_latest_gnss_data (file_of_lines lines) = Ok lines.
Proof.
  destruct (read_latest_gnss_data_shape f) as [raw R].
  exists (filter is_candidate (map strip raw)). split; [exact R|]. split.
  - apply Forall_forall. intros line H. apply filter_In in H.
    destruct H as [H1 H2]. split; [exact H2|].
    apply in_map_iff in H1. destruct H1 as (r & <- & _).
    apply strip_idempotent.
  - unfold read_latest_gnss_data. cbn [file_of_lines read_raw_lines encodings readlines].
    now rewrite clean_lines_filter, filter_strip_fixed, filter_idempotent.
Qed.

(** ** The two resolvers agree *)

Lemma scan_backward_head l : scan_backward l = Ok (hd_error (successes l)).
Proof.
  induction l as [|line rest IH]; cbn [scan_backward successes];
    [reflexivity|].
  destruct (parse_gngga_total line) as [Hn|(fx & Hs & Hv & _)].
  - rewrite (proj2 (parsed_fix_none line) Hn).
    destruct (is_valid_total line) as [[|] Hv]; rewrite Hv; cbn [bind];
      [rewrite Hn; cbn [bind]|]; exact IH.
  - rewrite (proj2 (parsed_fix_some line fx) Hs), Hv. cbn [bind].
    rewrite Hs. reflexivity.
Qed.

Lemma successes_app l1 l2 : successes (l1 ++ l2) = successes l1 ++ successes l2.
Proof.
  induction l1 as [|a l1 IH]; cbn [app successes]; [reflexivity|].
  destruct (parsed_fix a); cbn [app]; now rewrite IH.
Qed.

Lemma successes_rev l : successes (rev l) = rev (successes l).
Proof.
  induction l as [|a l IH]; cbn [rev successes]; [reflexivity|].
  rewrite successes_app, IH. cbn [successes].
  destruct (parsed_fix a); cbn [rev]; [reflexivity|]. now rewrite app_nil_r.
Qed.

Lemma get_last_valid_position_successes f lines :
  read_latest_gnss_data f = Ok lines ->
  get_last_valid_position f = Ok (hd_error (rev (successes lines))).
Proof.
  intros R. unfold get_last_valid_position. rewrite R. cbn [bind].
  destruct lines as [|l0 rest]; [reflexivity|].
  now rewrite scan_backward_head, successes_rev.
Qed.

(** X2.  Live mode's latest fix is the last position of batch mode. *)
Theorem latest_fix_is_last_batch_position f :
  exists lines positions skipped_count,
    parse_all f = Ok (lines, positions, skipped_count)
    /\ get_last_valid_position f = Ok (hd_error (rev positions)).
Proof.
  destruct (read_latest_gnss_data_total f) as [lines R].
  exists lines, (successes lines),
    (Z.of_nat (List.length lines) - Z.of_nat (List.length (successes lines))).
  split.
  - unfold parse_all. rewrite R. cbn [bind]. now rewrite parse_loop_spec.
  - apply get_last_valid_position_successes, R.
Qed.

(** X3.  A file that cannot be read gives no candidate line, no position
    and no latest fix. *)
Theorem unreadable_file_gives_nothing f e :
  read_raw_lines f encodings = Raise e ->
  read_latest_gnss_data f = Ok []
  /\ parse_all f = Ok ([], [], 0)
  /\ get_last_valid_position f = Ok None.
Proof.
  intros H.
  assert (R : read_latest_gnss_data f = Ok []).
  { unfold read_latest_gnss_data. rewrite H. destruct e; reflexivity. }
  split; [exact R|]. unfold parse_all, get_last_valid_position.
  rewrite R. split; reflexivity.
Qed.

Lemma unreadable_file_gives_nothing_witness :
  read_raw_lines unreadable_file encodings = Raise OSError
  /\ read_latest_gnss_data unreadable_file = Ok []
  /\ parse_all unreadable_file = Ok ([], [], 0)
  /\ get_last_valid_position unreadable_file = Ok None.
Proof.
  split; [reflexivity|].
  apply (unreadable_file_gives_nothing unreadable_file OSError). reflexivity.
Defined.

(** X4.  Every position of batch mode comes from a line the validator
    accepts and lies within the final bounds. *)
Theorem batch_positions_within_bounds f :
  exists lines positions skipped_count,
    parse_all f = Ok (lines, positions, skipped_count)
    /\ Forall (fun fx =>
                 in_final_bounds (latitude fx) (longitude fx) (altitude fx)
                 = true
                 /\ exists line, In line lines
                                 /\ is_valid_gngga_line line = Ok true
                                 /\ parse_gngga line = Ok (Some fx))
         positions.
Proof.
  destruct (read_latest_gnss_data_total f) as [lines R].
  exists lines, (successes lines),
    (Z.of_nat (List.length lines) - Z.of_nat (List.length (successes lines))).
  split.
  - unfold parse_all. rewrite R. cbn [bind]. now rewrite parse_loop_spec.
  - clear R. induction lines as [|line rest IH]; cbn [successes];
      [constructor|].
    assert (IH' : Forall (fun fx =>
                 in_final_bounds (latitude fx) (longitude fx) (altitude fx)
                 = true
                 /\ exists l, In l (line :: rest)
                              /\ is_valid_gngga_line l = Ok true
                              /\ parse_gngga l = Ok (Some fx))
              (successes rest)).
    { eapply Forall_impl; [|exact IH].
      intros fx (B & l & Hin & Hv & Hp). split; [exact B|].
      exists l. split; [right; exact Hin|]. split; assumption. }
    destruct (parsed_fix line) as [fx|] eqn:P; [|exact IH'].
    constructor; [|exact IH'].
    apply parsed_fix_some in P.
    destruct (parse_gngga_total line) as [Hn|(fx' & Hs & Hv & B)];
      [congruence|].
    assert (fx' = fx) by congruence. subst fx'.
    split; [exact B|]. exists line. split; [left; reflexivity|].
    split; assumption.
Qed.

(** ** Fields *)

Lemma split_length sep s :
  List.length (split sep s) = S (count_char sep s).
Proof.
  induction s as [|c r IH]; cbn [split count_char]; [reflexivity|].
  destruct (Ascii.eqb c sep); cbn [List.length Nat.add]; [now rewrite IH|].
  destruct (split sep r) as [|h t]; [discriminate|]. exact IH.
Qed.

(** X5.  A line with fewer than 14 commas is rejected. *)
Theorem too_few_commas_rejected line :
  (count_char "," line < 14)%nat -> is_valid_gngga_line line = Ok false.
Proof.
  intros H. unfold is_valid_gngga_line.
  destruct (startswith line "$GNGGA"); cbn [negb]; [|reflexivity].
  replace (List.length (split "," line) <? 15)%nat with true;
    [reflexivity|].
  symmetry. apply Nat.ltb_lt. rewrite split_length. lia.
Qed.

Lemma too_few_commas_rejected_witness :
  (count_char "," short_line < 14)%nat
  /\ is_valid_gngga_line short_line = Ok false.
Proof.
  split; [vm_compute; lia|].
  apply (too_few_commas_rejected short_line). vm_compute. lia.
Defined.

(** A float between two numbers that are not infinite is not infinite. *)
Lemma between_numbers lo hi f :
  finite_or_zero (Prim2SF lo) -> finite_or_zero (Prim2SF hi) ->
  (lo <=? f)%float = true -> (f <=? hi)%float = true ->
  finite_or_zero (Prim2SF f).
Proof.
  intros Hlo Hhi H1 H2. rewrite leb_spec in H1, H2.
  destruct (Prim2SF f) as [s|s| |s m e]; cbn; try exact I.
  - destruct (Prim2SF hi) as [sh|sh| |sh mh eh]; try contradiction;
      destruct (Prim2SF lo) as [sl|sl| |sl ml el]; try contradiction;
      destruct s; cbn in H1, H2; try discriminate;
      try (destruct sl; discriminate); try (destruct sh; discriminate).
  - destruct (Prim2SF lo); discriminate.
Qed.

(** X6.  A latitude, longitude or altitude field that reads as [nan] or as
    an infinity makes the validator reject the line. *)
Theorem non_finite_field_rejected line i raw v :
  i = 2%nat \/ i = 4%nat \/ i = 9%nat ->
  nth_error (split "," line) i = Some raw ->
  py_float raw = Ok v ->
  ~ finite_or_zero (Prim2SF v) ->
  is_valid_gngga_line line = Ok false.
Proof.
  intros Hi Hn Hf Hv.
  destruct (is_valid_total line) as [[|] H]; [exfalso|exact H].
  destruct (is_valid_true_inv line H)
    as (lat_raw & lat_dir & lon_raw & lon_dir & alt_str
        & lat_val & lon_val & alt_val & V).
  destruct V as [P L E2 E3 E4 E5 E9 N F1 F2 F3 Z1 Z2 A1 A2 B1 B2 C1 C2].
  apply Hv.
  destruct Hi as [-> | [-> | ->]].
  - assert (v = lat_val) by congruence. subst v.
    apply (between_numbers 0 9000); try assumption; exact I.
  - assert (v = lon_val) by congruence. subst v.
    apply (between_numbers 0 18000); try assumption; exact I.
  - assert (v = alt_val) by congruence. subst v.
    apply (between_numbers (-1000) 10000); try assumption; exact I.
Qed.

Lemma non_finite_field_rejected_witness :
  (9%nat = 2%nat \/ 9%nat = 4%nat \/ 9%nat = 9%nat)
  /\ nth_error (split "," nan_altitude_line) 9 = Some "NaN"
  /\ py_float "NaN" = Ok nan
  /\ ~ finite_or_zero (Prim2SF nan)
  /\ is_valid_gngga_line nan_altitude_line = Ok false.
Proof.
  split; [right; right; reflexivity|].
  split; [vm_compute; reflexivity|].
  split; [vm_compute; reflexivity|].
  split; [intros []|].
  apply (non_finite_field_rejected nan_altitude_line 9 "NaN" nan);
    [right; right; reflexivity|vm_compute; reflexivity..|intros []].
Defined.

(** ** Hemispheres *)

(** X7.  The hemisphere only decides the sign: for S and W [convert]
    returns the negation of what it returns for N, raising when that
    raises, and every other text is treated like N. *)
Theorem hemisphere_only_flips_sign coord :
  convert coord "S" = (d <- convert coord "N" ;; Ok (- d)%float)
  /\ convert coord "W" = (d <- convert coord "N" ;; Ok (- d)%float)
  /\ forall direction,
       direction <> "S" -> direction <> "W" ->
       convert coord direction = convert coord "N".
Proof.
  assert (G : forall direction,
             convert coord direction
             = (d <- convert coord "N" ;;
                if String.eqb direction "S" || String.eqb direction "W"
                then Ok (- d)%float else Ok d)).
  { intros direction. unfold convert.
    destruct (py_float coord) as [v|e]; cbn [bind]; [|reflexivity].
    destruct (py_int (v / 100)%float) as [deg|e]; cbn [bind]; [|reflexivity].
    destruct (float_of_int (deg * 100)) as [d100|e]; cbn [bind];
      [|reflexivity].
    destruct (float_of_int deg) as [degf|e]; cbn [bind]; [|reflexivity].
    change (String.eqb "N" "S" || String.eqb "N" "W") with false.
    cbn [bind]. rewrite mul_minus_one. reflexivity. }
  split; [|split].
  - rewrite (G "S"). reflexivity.
  - rewrite (G "W"). reflexivity.
  - intros direction HS HW. rewrite (G direction).
    apply String.eqb_neq in HS, HW. rewrite HS, HW. cbn [orb].
    destruct (convert coord "N"); reflexivity.
Qed.

Lemma split_exact_tag rest :
  split "," ("$GNGGA," ++ rest)%string = "$GNGGA" :: split "," rest.
Proof.
  cbn. destruct (split "," rest); reflexivity.
Qed.

(** X8.  For a sentence whose tag is exactly [$GNGGA] and which the
    validator accepts, the parser's own checks of the field count, the
    tag, the empty fields and the altitude never fail: it returns a fix
    exactly when the converted latitude lies in [-90, 90] and the
    converted longitude in [-180, 180]. *)
Theorem exact_tag_rejects_only_on_degrees rest :
  is_valid_gngga_line ("$GNGGA," ++ rest)%string = Ok true ->
  exists utc lat_raw lat_dir lon_raw lon_dir alt_str dlat dlon alt_val,
    nth_error (split "," rest) 0 = Some utc
    /\ nth_error (split "," rest) 1 = Some lat_raw
    /\ nth_error (split "," rest) 2 = Some lat_dir
    /\ nth_error (split "," rest) 3 = Some lon_raw
    /\ nth_error (split "," rest) 4 = Some lon_dir
    /\ nth_error (split "," rest) 8 = Some alt_str
    /\ convert lat_raw lat_dir = Ok dlat
    /\ convert lon_raw lon_dir = Ok dlon
    /\ py_float alt_str = Ok alt_val
    /\ parse_gngga ("$GNGGA," ++ rest)%string
       = Ok (if ((-90 <=? dlat) && (dlat <=? 90)
                 && ((-180 <=? dlon) && (dlon <=? 180)))%float
             then Some (mkFix utc dlat dlon alt_val) else None).
Proof.
  intros Hv.
  destruct (is_valid_true_inv _ Hv)
    as (lat_raw & lat_dir & lon_raw & lon_dir & alt_str
        & lat_val & lon_val & alt_val & V).
  destruct (parse_gngga_valid _ _ _ _ _ _ _ _ _ V)
    as (head & utc & dlat & dlon & H0 & H1 & _ & _ & K1 & K2 & Hp).
  destruct V as [P L E2 E3 E4 E5 E9 N F1 F2 F3 Z1 Z2 A1 A2 B1 B2 C1 C2].
  rewrite split_exact_tag in H0, H1, E2, E3, E4, E5, E9.
  cbn [nth_error] in H0, H1, E2, E3, E4, E5, E9.
  injection H0 as <-.
  exists utc, lat_raw, lat_dir, lon_raw, lon_dir, alt_str, dlat, dlon, alt_val.
  repeat (split; [assumption|]).
  rewrite Hp. unfold in_final_bounds. rewrite C1, C2.
  change (endswith "$GNGGA" "GGA") with true.
  cbn [andb]. now rewrite andb_true_r.
Qed.

Lemma exact_tag_rejects_only_on_degrees_witness :
  is_valid_gngga_line ("$GNGGA," ++ example_fields)%string = Ok true
  /\ exists utc lat_raw lat_dir lon_raw lon_dir alt_str dlat dlon alt_val,
    nth_error (split "," example_fields) 0 = Some utc
    /\ nth_error (split "," example_fields) 1 = Some lat_raw
    /\ nth_error (split "," example_fields) 2 = Some lat_dir
    /\ nth_error (split "," example_fields) 3 = Some lon_raw
    /\ nth_error (split "," example_fields) 4 = Some lon_dir
    /\ nth_error (split "," example_fields) 8 = Some alt_str
    /\ convert lat_raw lat_dir = Ok dlat
    /\ convert lon_raw lon_dir = Ok dlon
    /\ py_float alt_str = Ok alt_val
    /\ parse_gngga ("$GNGGA," ++ example_fields)%string
       = Ok (if ((-90 <=? dlat) && (dlat <=? 90)
                 && ((-180 <=? dlon) && (dlon <=? 180)))%float
             then Some (mkFix utc dlat dlon alt_val) else None).
Proof.
  split; [vm_compute; reflexivity|].
  apply (exact_tag_rejects_only_on_degrees example_fields).
  vm_compute. reflexivity.
Defined.

(** ** The projection at the observer *)

Lemma SF64sub_self x : finite_or_zero x -> SF64sub x x = S754_zero false.
Proof.
  destruct x as [s|s| |s m e]; cbn [finite_or_zero]; try contradiction;
    intros _.
  - destruct s; reflexivity.
  - unfold SF64sub, SFsub. rewrite Z.sub_diag. reflexivity.
Qed.

Lemma sub_self f : finite_or_zero (Prim2SF f) -> (f - f)%float = 0%float.
Proof.
  intros H. apply Prim2SF_inj. rewrite sub_spec.
  now rewrite SF64sub_self.
Qed.

Lemma zero_times_number c :
  finite_or_zero (Prim2SF c) -> (0 * c =? 0)%float = true.
Proof.
  intros H. rewrite eqb_spec, mul_spec.
  change (Prim2SF 0%float) with (S754_zero false).
  destruct (Prim2SF c) as [s|s| |s m e]; try contradiction; reflexivity.
Qed.

(** X9.  A position at the reference point itself projects to the origin:
    the north offset is 0.0 and the east offset equals zero, whenever
    the reference coordinates and the cosine of the reference latitude
    are finite. *)
Theorem geo_to_xy_at_reference np_cos lat0 lon0 :
  finite_or_zero (Prim2SF lat0) ->
  finite_or_zero (Prim2SF lon0) ->
  finite_or_zero (Prim2SF (np_cos (lat0 * np_pi / 180)%float)) ->
  (fst (geo_to_xy np_cos lat0 lon0 lat0 lon0) =? 0)%float = true
  /\ snd (geo_to_xy np_cos lat0 lon0 lat0 lon0) = 0%float.
Proof.
  intros Hlat Hlon Hc. unfold geo_to_xy. cbn [fst snd].
  rewrite (sub_self lat0 Hlat), (sub_self lon0 Hlon).
  change (0 * np_pi / 180 * 6371000)%float with 0%float.
  split; [apply zero_times_number, Hc|reflexivity].
Qed.

Lemma geo_to_xy_at_reference_witness :
  finite_or_zero (Prim2SF OBSERVER_LAT)
  /\ finite_or_zero (Prim2SF OBSERVER_LON)
  /\ finite_or_zero (Prim2SF (cos_taylor (OBSERVER_LAT * np_pi / 180)%float))
  /\ (fst (geo_to_xy cos_taylor OBSERVER_LAT OBSERVER_LON
             OBSERVER_LAT OBSERVER_LON) =? 0)%float = true
  /\ snd (geo_to_xy cos_taylor OBSERVER_LAT OBSERVER_LON
            OBSERVER_LAT OBSERVER_LON) = 0%float.
Proof.
  split; [exact I|]. split; [exact I|]. split; [exact I|].
  apply (geo_to_xy_at_reference cos_taylor OBSERVER_LAT OBSERVER_LON);
    exact I.
Defined.

(** ** Polling *)

Lemma append_point_size st x y z :
  last_file_size (append_point st x y z) = last_file_size st.
Proof.
  unfold append_point.
  destruct (1000 <? List.length (live_path_x st ++ [x]))%nat; reflexivity.
Qed.

Lemma live_iteration_size np_cos st p sz :
  getsize p = Ok sz ->
  last_file_size (live_iteration np_cos st p) = sz.
Proof.
  intros G. unfold live_iteration. rewrite G.
  destruct (sz =? last_file_size st) eqn:E;
    [apply Z.eqb_eq in E; now rewrite E|].
  destruct (get_last_valid_position (contents p)) as [[fx|]|e];
    try reflexivity.
  destruct (offset np_cos fx) as [[x y] z].
  destruct (unreasonable x y z); [reflexivity|].
  now rewrite append_point_size.
Qed.

(** X10.  A poll that finds the size of the previous poll changes nothing,
    whatever the file then holds; a poll whose size query fails changes
    nothing either. *)
Theorem same_size_poll_is_ignored np_cos st p1 p2 sz :
  getsize p1 = Ok sz ->
  (getsize p2 = Ok sz \/ exists e, getsize p2 = Raise e) ->
  live_iteration np_cos (live_iteration np_cos st p1) p2
  = live_iteration np_cos st p1.
Proof.
  intros G1 G2.
  pose proof (live_iteration_size np_cos st p1 sz G1) as S.
  unfold live_iteration at 1.
  destruct G2 as [G2|[e G2]]; rewrite G2; [|reflexivity].
  rewrite S, Z.eqb_refl. reflexivity.
Qed.

Lemma same_size_poll_is_ignored_witness :
  getsize example_poll = Ok 70
  /\ (getsize same_size_poll = Ok 70
      \/ exists e, getsize same_size_poll = Raise e)
  /\ live_iteration cos_taylor
       (live_iteration cos_taylor live_start example_poll) same_size_poll
     = live_iteration cos_taylor live_start example_poll.
Proof.
  split; [reflexivity|]. split; [left; reflexivity|].
  apply (same_size_poll_is_ignored cos_taylor live_start example_poll
           same_size_poll 70); [reflexivity|left; reflexivity].
Defined.

(** X11.  After any sequence of polls the three coordinate lists have the
    same length. *)
Theorem live_paths_have_one_length np_cos polls :
  List.length (live_path_y (live_gnss_playback np_cos polls))
  = List.length (live_path_x (live_gnss_playback np_cos polls))
  /\ List.length (live_path_z (live_gnss_playback np_cos polls))
     = List.length (live_path_x (live_gnss_playback np_cos polls)).
Proof.
  unfold live_gnss_playback.
  destruct (live_run_sized np_cos polls live_start live_start_sized)
    as (_ & Hy & Hz).
  split; assumption.
Qed.

(** ** The order of the floats *)

Lemma compare_cont_Eq_spec m1 m2 :
  CompareSpec (Zpos m1 = Zpos m2) (Zpos m1 < Zpos m2) (Zpos m2 < Zpos m1)
    (Pos.compare_cont Eq m1 m2).
Proof.
  change (Pos.compare_cont Eq m1 m2) with (Pos.compare m1 m2).
  destruct (Pos.compare_spec m1 m2); constructor; subst; lia.
Qed.

Lemma SFleb_key x y :
  x <> S754_nan -> y <> S754_nan ->
  (SFleb x y = true <-> key_le (order_key x) (order_key y)).
Proof.
  intros Hx Hy. unfold SFleb, key_le.
  destruct x as [sx|sx| |sx mx ex], y as [sy|sy| |sy my ey];
    try contradiction; try (destruct sx); try (destruct sy);
    cbn [SFcompare order_key fst snd];
    try (split; [intros _; lia|reflexivity]);
    try (split; [discriminate|lia]).
  - destruct (Z.compare_spec ex ey); cbn [CompOpp];
      try (split; [intros _; lia|reflexivity]);
      try (split; [discriminate|lia]).
    destruct (compare_cont_Eq_spec mx my); cbn [CompOpp];
      try (split; [intros _; lia|reflexivity]);
      try (split; [discriminate|lia]).
  - destruct (Z.compare_spec ex ey);
      try (split; [intros _; lia|reflexivity]);
      try (split; [discriminate|lia]).
    destruct (compare_cont_Eq_spec mx my);
      try (split; [intros _; lia|reflexivity]);
      try (split; [discriminate|lia]).
Qed.

Lemma SFleb_numbers x y :
  SFleb x y = true -> x <> S754_nan /\ y <> S754_nan.
Proof.
  unfold SFleb. destruct x, y; cbn [SFcompare]; try discriminate;
    intros _; split; discriminate.
Qed.

Lemma leb_numbers a b : (a <=? b)%float = true -> not_nan a /\ not_nan b.
Proof. rewrite leb_spec. apply SFleb_numbers. Qed.

Lemma leb_trans a b c :
  (a <=? b)%float = true -> (b <=? c)%float = true -> (a <=? c)%float = true.
Proof.
  rewrite !leb_spec. intros H1 H2.
  destruct (SFleb_numbers _ _ H1) as [Na Nb].
  destruct (SFleb_numbers _ _ H2) as [_ Nc].
  apply SFleb_key in H1, H2; try assumption.
  apply SFleb_key; try assumption.
  unfold key_le in *. lia.
Qed.

Lemma leb_refl a : not_nan a -> (a <=? a)%float = true.
Proof.
  unfold not_nan. rewrite leb_spec. intros H.
  apply SFleb_key; try assumption. unfold key_le. lia.
Qed.

Lemma ltb_leb a b : (a <? b)%float = true -> (a <=? b)%float = true.
Proof.
  rewrite ltb_spec, leb_spec. unfold SFltb, SFleb.
  destruct (SFcompare (Prim2SF a) (Prim2SF b)) as [[ | | ]|];
    congruence.
Qed.

Lemma ltb_false_leb a b :
  not_nan a -> not_nan b -> (a <? b)%float = false -> (b <=? a)%float = true.
Proof.
  unfold not_nan. rewrite ltb_spec, leb_spec. intros Ha Hb.
  unfold SFltb, SFleb.
  destruct (SFcompare (Prim2SF a) (Prim2SF b)) as [o|] eqn:E.
  - rewrite (SFcompare_antisym _ _ _ E). destruct o; cbn; congruence.
  - exfalso.
    destruct (Prim2SF a) as [sa|sa| |sa ma ea], (Prim2SF b) as [s|s| |s m e];
      cbn in E; try congruence; try (destruct sa); discriminate.
Qed.

(** ** Minimum and maximum *)

Lemma min_from_spec l : forall best,
  not_nan best -> Forall not_nan l ->
  (min_from best l = best \/ In (min_from best l) l)
  /\ (min_from best l <=? best)%float = true
  /\ Forall (fun v => (min_from best l <=? v)%float = true) l.
Proof.
  induction l as [|item rest IH]; intros best Hb Hl; cbn [min_from].
  - split; [left; reflexivity|]. split; [apply leb_refl, Hb|constructor].
  - inversion Hl as [|? ? Hi Hr]; subst.
    destruct (item <? best)%float eqn:C.
    + destruct (IH item Hi Hr) as (M & B & A).
      split; [right; destruct M as [->|M]; [left; reflexivity|right; exact M]|].
      split; [exact (leb_trans _ _ _ B (ltb_leb _ _ C))|].
      constructor; assumption.
    + destruct (IH best Hb Hr) as (M & B & A).
      split; [destruct M as [M|M]; [left; exact M|right; right; exact M]|].
      split; [exact B|].
      constructor; [|exact A].
      exact (leb_trans _ _ _ B (ltb_false_leb _ _ Hi Hb C)).
Qed.

Lemma max_from_spec l : forall best,
  not_nan best -> Forall not_nan l ->
  (max_from best l = best \/ In (max_from best l) l)
  /\ (best <=? max_from best l)%float = true
  /\ Forall (fun v => (v <=? max_from best l)%float = true) l.
Proof.
  induction l as [|item rest IH]; intros best Hb Hl; cbn [max_from].
  - split; [left; reflexivity|]. split; [apply leb_refl, Hb|constructor].
  - inversion Hl as [|? ? Hi Hr]; subst.
    destruct (best <? item)%float eqn:C.
    + destruct (IH item Hi Hr) as (M & B & A).
      split; [right; destruct M as [->|M]; [left; reflexivity|right; exact M]|].
      split; [exact (leb_trans _ _ _ (ltb_leb _ _ C) B)|].
      constructor; assumption.
    + destruct (IH best Hb Hr) as (M & B & A).
      split; [destruct M as [M|M]; [left; exact M|right; right; exact M]|].
      split; [exact B|].
      constructor; [|exact A].
      exact (leb_trans _ _ _ (ltb_false_leb _ _ Hb Hi C) B).
Qed.

(** ** Batch mode up to the staging *)

Lemma transform_loop_map np_cos positions : forall coords altitudes,
  transform_loop np_cos positions coords altitudes
  = (coords ++ map (offset np_cos) positions,
     altitudes
     ++ map (fun fx => (altitude fx - OBSERVER_ALT)%float) positions).
Proof.
  induction positions as [|fx rest IH]; intros coords altitudes;
    cbn [transform_loop map].
  - now rewrite !app_nil_r.
  - assert (O : offset np_cos fx
                = (fst (fst (offset np_cos fx)), snd (fst (offset np_cos fx)),
                   (altitude fx - OBSERVER_ALT)%float)).
    { unfold offset.
      destruct (geo_to_xy np_cos OBSERVER_LAT OBSERVER_LON
                  (latitude fx) (longitude fx)); reflexivity. }
    rewrite O at 1. rewrite IH, <- !app_assoc, <- O. reflexivity.
Qed.

Lemma successes_within_bounds lines :
  Forall (fun fx =>
            in_final_bounds (latitude fx) (longitude fx) (altitude fx) = true)
    (successes lines).
Proof.
  induction lines as [|line rest IH]; cbn [successes]; [constructor|].
  destruct (parsed_fix line) as [fx|] eqn:P; [|exact IH].
  constructor; [|exact IH]. apply parsed_fix_some in P.
  destruct (parse_gngga_total line) as [Hn|(fx' & Hs & _ & B)];
    congruence.
Qed.

Lemma altitude_offset_not_nan fx :
  in_final_bounds (latitude fx) (longitude fx) (altitude fx) = true ->
  not_nan (altitude fx - OBSERVER_ALT)%float.
Proof.
  unfold in_final_bounds. intros B.
  apply andb_true_iff in B. destruct B as [_ Ba].
  apply andb_true_iff in Ba. destruct Ba as [B1 B2].
  apply sub_not_nan; [|exact I].
  apply finite_or_zero_not_nan.
  eapply (between_finite (-1000) 10000); try eassumption; reflexivity.
Qed.

Lemma z_buffer_at_least_two v : (2 <=? max_from 2 [v])%float = true.
Proof.
  cbn [max_from]. destruct (2 <? v)%float eqn:C; [apply ltb_leb, C|].
  reflexivity.
Qed.

(** X12.  Batch mode either stops because no position was parsed or stages
    the positions without raising: there is one projected coordinate and
    one altitude offset per position, in order; [min_alt] and [max_alt]
    are altitude offsets of the run and bound every altitude offset; and
    [z_buffer] is at least 2. *)
Theorem batch_staging_bounds np_cos f :
  exists lines positions skipped_count,
    parse_all f = Ok (lines, positions, skipped_count)
    /\ match positions with
       | [] => batch_staging np_cos f = Ok None
       | _ :: _ =>
           exists s,
             let altitudes :=
               map (fun fx => (altitude fx - OBSERVER_ALT)%float) positions in
             batch_staging np_cos f
             = Ok (Some (map (offset np_cos) positions, altitudes, s))
             /\ In (min_alt s) altitudes
             /\ In (max_alt s) altitudes
             /\ Forall (fun z => (min_alt s <=? z)%float = true
                                 /\ (z <=? max_alt s)%float = true) altitudes
             /\ (2 <=? z_buffer s)%float = true
       end.
Proof.
  destruct (read_latest_gnss_data_total f) as [lines R].
  assert (P : parse_all f
              = Ok (lines, successes lines,
                    Z.of_nat (List.length lines)
                    - Z.of_nat (List.length (successes lines)))).
  { unfold parse_all. rewrite R. cbn [bind]. now rewrite parse_loop_spec. }
  exists lines, (successes lines),
    (Z.of_nat (List.length lines) - Z.of_nat (List.length (successes lines))).
  split; [exact P|].
  pose proof (successes_within_bounds lines) as B.
  unfold batch_staging. rewrite P. cbn [bind fst snd].
  destruct (successes lines) as [|fx rest]; [reflexivity|].
  rewrite transform_loop_map. cbn [app].
  assert (N : Forall not_nan
                (map (fun fx => (altitude fx - OBSERVER_ALT)%float)
                   (fx :: rest))).
  { apply Forall_map. eapply Forall_impl; [|exact B].
    intros a. apply altitude_offset_not_nan. }
  cbn [map] in N |- *.
  apply Forall_cons_iff in N. destruct N as [Hf Hr].
  set (z0 := (altitude fx - OBSERVER_ALT)%float) in *.
  set (zs := map (fun fx => (altitude fx - OBSERVER_ALT)%float) rest) in *.
  destruct (min_from_spec zs z0 Hf Hr) as (M1 & B1 & A1).
  destruct (max_from_spec zs z0 Hf Hr) as (M2 & B2 & A2).
  eexists. unfold stage_altitudes.
  cbn [py_min py_max bind]. split; [reflexivity|].
  cbn [min_alt max_alt z_buffer].
  split; [destruct M1 as [->|M]; [left; reflexivity|right; exact M]|].
  split; [destruct M2 as [->|M]; [left; reflexivity|right; exact M]|].
  split; [|apply z_buffer_at_least_two].
  constructor; [split; assumption|].
  rewrite Forall_forall in *. intros v Hv. split; auto.
Qed.

(** ** Fields the source never reads *)

Lemma prefix_head sep p : forall s,
  count_char sep p = 0%nat ->
  String.prefix p s = String.prefix p (hd EmptyString (split sep s)).
Proof.
  induction p as [|a p IH]; intros s Hp.
  - destruct s, (hd EmptyString (split sep _)); reflexivity.
  - cbn [count_char] in Hp.
    destruct (Ascii.eqb a sep) eqn:Ea; [discriminate|]. cbn [Nat.add] in Hp.
    destruct s as [|c r]; [reflexivity|]. cbn [split].
    destruct (Ascii.eqb c sep) eqn:Ec.
    + cbn [hd String.prefix].
      destruct (ascii_dec a c) as [->|Hac]; [congruence|reflexivity].
    + pose proof (IH r Hp) as H.
      destruct (split sep r) as [|h t]; cbn [hd] in *;
        cbn [String.prefix]; destruct (ascii_dec a c); try reflexivity.
      * rewrite H. destruct p; reflexivity.
      * exact H.
Qed.

Lemma startswith_head line head :
  nth_error (split "," line) 0 = Some head ->
  startswith line "$GNGGA" = startswith head "$GNGGA".
Proof.
  intros H. unfold startswith.
  rewrite (prefix_head "," "$GNGGA" line) by reflexivity.
  destruct (split "," line) as [|h t]; [discriminate|].
  cbn in H. injection H as ->. reflexivity.
Qed.

(** X13.  Only the tag and the fields 1 to 5 and 9 are read: two lines of
    at least 15 fields that agree on them get the same answer from the
    validator and from the parser, whatever their other fields and their
    checksum are. *)
Theorem unread_fields_are_ignored line1 line2 :
  (15 <= List.length (split "," line1))%nat ->
  (15 <= List.length (split "," line2))%nat ->
  (forall i, In i [0; 1; 2; 3; 4; 5; 9]%nat ->
             nth_error (split "," line1) i = nth_error (split "," line2) i) ->
  is_valid_gngga_line line1 = is_valid_gngga_line line2
  /\ parse_gngga line1 = parse_gngga line2.
Proof.
  intros L1 L2 H.
  destruct (getitem_in_range (split "," line1) 0) as [head H0]; [lia|].
  assert (V : is_valid_gngga_line line1 = is_valid_gngga_line line2).
  { unfold is_valid_gngga_line, getitem.
    rewrite (startswith_head line1 head H0).
    rewrite (startswith_head line2 head) by (rewrite <- H0; symmetry; apply H; cbn; tauto).
    replace (List.length (split "," line1) <? 15)%nat with false
      by (symmetry; apply Nat.ltb_ge; lia).
    replace (List.length (split "," line2) <? 15)%nat with false
      by (symmetry; apply Nat.ltb_ge; lia).
    rewrite !(H 2%nat), !(H 3%nat), !(H 4%nat), !(H 5%nat), !(H 9%nat)
      by (cbn; tauto).
    reflexivity. }
  split; [exact V|].
  unfold parse_gngga, getitem. rewrite V.
  replace (List.length (split "," line1) <? 10)%nat with false
    by (symmetry; apply Nat.ltb_ge; lia).
  replace (List.length (split "," line2) <? 10)%nat with false
    by (symmetry; apply Nat.ltb_ge; lia).
  rewrite !(H 0%nat), !(H 1%nat), !(H 2%nat), !(H 3%nat), !(H 4%nat),
    !(H 5%nat), !(H 9%nat) by (cbn; tauto).
  reflexivity.
Qed.

Lemma unread_fields_are_ignored_witness :
  (15 <= List.length (split "," example_line))%nat
  /\ (15 <= List.length (split "," example_line_other_checksum))%nat
  /\ (forall i, In i [0; 1; 2; 3; 4; 5; 9]%nat ->
                nth_error (split "," example_line) i
                = nth_error (split "," example_line_other_checksum) i)
  /\ is_valid_gngga_line example_line
     = is_valid_gngga_line example_line_other_checksum
  /\ parse_gngga example_line = parse_gngga example_line_other_checksum.
Proof.
  assert (H : forall i, In i [0; 1; 2; 3; 4; 5; 9]%nat ->
                nth_error (split "," example_line) i
                = nth_error (split "," example_line_other_checksum) i).
  { intros i Hi. cbn [In] in Hi.
    repeat (destruct Hi as [<-|Hi]; [vm_compute; reflexivity|]).
    contradiction. }
  split; [vm_compute; lia|]. split; [vm_compute; lia|].
  split; [exact H|].
  apply (unread_fields_are_ignored example_line example_line_other_checksum);
    [vm_compute; lia|vm_compute; lia|exact H].
Defined.

(** ** One point per poll *)

(** X14.  A poll adds at most one point, the offset of the latest fix of the
    file, however many sentences the file gained; otherwise it leaves the
    three lists as they were. *)
Theorem poll_appends_at_most_latest_fix np_cos st p :
  List.length (live_path_y st) = List.length (live_path_x st) ->
  List.length (live_path_z st) = List.length (live_path_x st) ->
  (live_path_x (live_iteration np_cos st p) = live_path_x st
   /\ live_path_y (live_iteration np_cos st p) = live_path_y st
   /\ live_path_z (live_iteration np_cos st p) = live_path_z st)
  \/ exists lines positions skipped_count fx x y z,
       parse_all (contents p) = Ok (lines, positions, skipped_count)
       /\ hd_error (rev positions) = Some fx
       /\ offset np_cos fx = (x, y, z)
       /\ unreasonable x y z = false
       /\ live_path_x (live_iteration np_cos st p)
          = lastn 1000 (live_path_x st ++ [x])
       /\ live_path_y (live_iteration np_cos st p)
          = lastn 1000 (live_path_y st ++ [y])
       /\ live_path_z (live_iteration np_cos st p)
          = lastn 1000 (live_path_z st ++ [z]).
Proof.
  intros Hy Hz. unfold live_iteration.
  destruct (getsize p) as [sz|e]; [|left; repeat split].
  destruct (sz =? last_file_size st); [left; repeat split|].
  destruct (read_latest_gnss_data_total (contents p)) as [lines R].
  rewrite (get_last_valid_position_successes _ _ R).
  destruct (hd_error (rev (successes lines))) as [fx|] eqn:E;
    [|left; repeat split].
  destruct (offset np_cos fx) as [[x y] z] eqn:O.
  destruct (unreasonable x y z) eqn:U; [left; repeat split|].
  right.
  exists lines, (successes lines),
    (Z.of_nat (List.length lines) - Z.of_nat (List.length (successes lines))),
    fx, x, y, z.
  split; [unfold parse_all; rewrite R; cbn [bind]; now rewrite parse_loop_spec|].
  split; [exact E|]. split; [exact O|]. split; [exact U|].
  set (st' := mkLive (live_path_x st) (live_path_y st) (live_path_z st) sz).
  destruct (append_point_paths st' x y z Hy Hz) as (Ex & Ey & Ez & _).
  repeat split; assumption.
Qed.

Lemma poll_appends_at_most_latest_fix_witness :
  List.length (live_path_y live_start) = List.length (live_path_x live_start)
  /\ List.length (live_path_z live_start)
     = List.length (live_path_x live_start)
  /\ ((live_path_x (live_iteration cos_taylor live_start example_poll)
       = live_path_x live_start
       /\ live_path_y (live_iteration cos_taylor live_start example_poll)
          = live_path_y live_start
       /\ live_path_z (live_iteration cos_taylor live_start example_poll)
          = live_path_z live_start)
      \/ exists lines positions skipped_count fx x y z,
           parse_all (contents example_poll)
           = Ok (lines, positions, skipped_count)
           /\ hd_error (rev positions) = Some fx
           /\ offset cos_taylor fx = (x, y, z)
           /\ unreasonable x y z = false
           /\ live_path_x (live_iteration cos_taylor live_start example_poll)
              = lastn 1000 (live_path_x live_start ++ [x])
           /\ live_path_y (live_iteration cos_taylor live_start example_poll)
              = lastn 1000 (live_path_y live_start ++ [y])
           /\ live_path_z (live_iteration cos_taylor live_start example_poll)
              = lastn 1000 (live_path_z live_start ++ [z])).
Proof.
  split; [reflexivity|]. split; [reflexivity|].
  apply (poll_appends_at_most_latest_fix cos_taylor live_start example_poll);
    reflexivity.
Defined.
